(** * coprs.auth: the authentication and group facade of the Copr frontend

    A shallow embedding of [coprs/auth.py] and of [krb_straighten_username]
    and the GSSAPI login view from [coprs/views/apiv3_ns/apiv3_general.py],
    with the properties their specification states about them and further
    properties read off the code.

    Conventions of the embedding.
    - A Python [str] is a Rocq [string] holding its UTF-8 bytes; a Python
      [bytes] value is a Rocq [string] holding the bytes themselves.  Searching
      for, splitting on and concatenating ASCII text commute with that
      encoding.  The character classes of [urllib] are ASCII by definition.
      The class [\w] of [re] is Unicode-aware on a [str]: its ASCII part is
      written out, and what it holds past ASCII is read from the Unicode
      database of the interpreter, a parameter of the model.  Bytes that are
      not the UTF-8 encoding of a code point stand for no character and match
      no class.
    - [None] is [option]'s [None]; truthiness ([if x:], [not x], [x and y])
      is written out by the [truthy_*] functions.  An object without
      [__bool__] and [__len__] (a response, an ORM row) is truthy, so a test
      on a value that is [None] or such an object is a [match] on the
      [option].
    - A raised exception is a value of [exn]; a call that may raise returns
      a [result].  Code that talks to the directory server runs in the
      monad [M], which threads the [world] (requests sent, sleeps, output).
    - [while True] is unrolled by a fuel argument; a computation that runs
      out of fuel yields [None], never a result. *)

From Stdlib Require Import Ascii.
From stdpp Require Import base strings list gmap option.

Open Scope stdpp_scope.

(** ** Python values used by the facade *)

Module Py.

(** Exceptions the modelled code raises or lets through. *)
Inductive exn : Type :=
  | CoprHttpException (msg : string)
  | AccessRestricted (msg : string)
  | SERVER_DOWN (desc : string)      (* ldap.SERVER_DOWN, args[0]["desc"] *)
  | LDAPError (desc : string)        (* any other ldap exception *)
  | IndexError
  | KeyError (key : string)
  | ValueError
  | TypeError
  | UnicodeDecodeError.

Inductive result (A : Type) : Type :=
  | Ok (a : A)
  | Raise (e : exn).
Arguments Ok {A} a.
Arguments Raise {A} e.

Definition rbind {A B} (r : result A) (k : A → result B) : result B :=
  match r with
  | Ok a => k a
  | Raise e => Raise e
  end.

(** [bool(s)] for a [str]: the empty string is falsy. *)
Definition truthy_str (s : string) : bool :=
  match s with
  | EmptyString => false
  | String _ _ => true
  end.

(** [bool(x)] for a value that is [None] or a [str]. *)
Definition truthy_opt_str (x : option string) : bool :=
  match x with
  | None => false
  | Some s => truthy_str s
  end.

End Py.
Export Py.

(** ** Process configuration: [app.config] *)

(** [KRB5_LOGIN] is a boolean or a dictionary of options. *)
Inductive krb5_login : Type :=
  | KrbBool (b : bool)
  | KrbDict (d : gmap string string).

Definition truthy_krb5 (k : krb5_login) : bool :=
  match k with
  | KrbBool b => b
  | KrbDict d => negb (bool_decide (d = ∅))
  end.

(** [krb_config[key]]: a boolean is not subscriptable, a missing key
    raises. *)
Definition krb5_getitem (k : krb5_login) (key : string) : result string :=
  match k with
  | KrbBool _ => Raise TypeError
  | KrbDict d =>
      match d !! key with
      | Some v => Ok v
      | None => Raise (KeyError key)
      end
  end.

(** The options the facade reads.  [FAS_LOGIN] is a boolean, so the test
    [is True] and the truth test agree on it; [LDAP_URL] and
    [LDAP_SEARCH_STRING] are a string or [None]; [ALLOWED_USERS] is a list
    of names. *)
Record config : Type := Config {
  FAS_LOGIN : bool;
  KRB5_LOGIN : krb5_login;
  LDAP_URL : option string;
  LDAP_SEARCH_STRING : option string;
  USE_ALLOWED_USERS : bool;
  ALLOWED_USERS : list string;
  OPENID_PROVIDER_URL : string
}.

(** ** Python string operations *)

Module Str.

Definition LF : ascii := ascii_of_nat 10.
Definition TAB : ascii := ascii_of_nat 9.
Definition CR : ascii := ascii_of_nat 13.

Definition code_in (lo hi : nat) (c : ascii) : bool :=
  ((lo <=? nat_of_ascii c) && (nat_of_ascii c <=? hi))%nat.

Definition is_alpha (c : ascii) : bool := code_in 65 90 c || code_in 97 122 c.
Definition is_digit (c : ascii) : bool := code_in 48 57 c.

(** [c in chars] for a one-character [c]. *)
Fixpoint mem_char (c : ascii) (chars : string) : bool :=
  match chars with
  | EmptyString => false
  | String d chars' => Ascii.eqb c d || mem_char c chars'
  end.

Fixpoint all_chars (p : ascii → bool) (s : string) : bool :=
  match s with
  | EmptyString => true
  | String c s' => p c && all_chars p s'
  end.

(** [s.startswith(pre)] *)
Fixpoint startswith (pre s : string) : bool :=
  match pre, s with
  | EmptyString, _ => true
  | String _ _, EmptyString => false
  | String a pre', String b s' => Ascii.eqb a b && startswith pre' s'
  end.

(** [s[:n]] and [s[n:]] for [n >= 0]. *)
Fixpoint take (n : nat) (s : string) : string :=
  match n, s with
  | S n', String c s' => String c (take n' s')
  | _, _ => EmptyString
  end.

Fixpoint drop (n : nat) (s : string) : string :=
  match n, s with
  | S n', String _ s' => drop n' s'
  | _, _ => s
  end.

(** [s.find(c)] for a one-character [c]: [None] stands for [-1]. *)
Fixpoint find_char (c : ascii) (s : string) : option nat :=
  match s with
  | EmptyString => None
  | String d s' => if Ascii.eqb c d then Some 0 else S <$> find_char c s'
  end.

(** [old in s]: [old] occurs in [s] as a substring. *)
Fixpoint occurs (old s : string) : bool :=
  startswith old s ||
  match s with
  | EmptyString => false
  | String _ s' => occurs old s'
  end.

(** [s.split(sep)] for a one-character separator: every occurrence cuts,
    so the result is never empty and may hold empty strings. *)
Fixpoint split (sep : ascii) (s : string) : list string :=
  match s with
  | EmptyString => [EmptyString]
  | String c s' =>
      if Ascii.eqb c sep then EmptyString :: split sep s'
      else match split sep s' with
           | w :: ws => String c w :: ws
           | [] => [String c EmptyString]
           end
  end.

(** [sep.join(parts)] *)
Fixpoint join (sep : string) (parts : list string) : string :=
  match parts with
  | [] => EmptyString
  | [p] => p
  | p :: ps => p +:+ sep +:+ join sep ps
  end.

(** [s.replace(old, new)] scans left to right and replaces the
    non-overlapping occurrences; [skip] counts the characters of the
    occurrence just replaced that are still to be passed over. *)
Fixpoint replace_from (old new : string) (skip : nat) (s : string) : string :=
  match s with
  | EmptyString => EmptyString
  | String c s' =>
      match skip with
      | S k => replace_from old new k s'
      | 0 =>
          if startswith old s
          then new +:+ replace_from old new (String.length old - 1) s'
          else String c (replace_from old new 0 s')
      end
  end.

(** With an empty [old], [new] goes before every character and at the end. *)
Fixpoint replace_empty (new s : string) : string :=
  match s with
  | EmptyString => new
  | String c s' => new +:+ String c (replace_empty new s')
  end.

Definition replace (old new s : string) : string :=
  match old with
  | EmptyString => replace_empty new s
  | String _ _ => replace_from old new 0 s
  end.

(** Strict UTF-8, as [bytes.decode("utf-8")] checks it: no overlong form,
    no surrogate, nothing above U+10FFFF. *)
Definition cont_byte : ascii → bool := code_in 128 191.

Definition lead3_ok (b0 b1 : ascii) : bool :=
  (code_in 224 224 b0 && code_in 160 191 b1)
  || ((code_in 225 236 b0 || code_in 238 239 b0) && cont_byte b1)
  || (code_in 237 237 b0 && code_in 128 159 b1).

Definition lead4_ok (b0 b1 : ascii) : bool :=
  (code_in 240 240 b0 && code_in 144 191 b1)
  || (code_in 241 243 b0 && cont_byte b1)
  || (code_in 244 244 b0 && code_in 128 143 b1).

Fixpoint utf8_valid (s : string) : bool :=
  match s with
  | EmptyString => true
  | String b0 s1 =>
      if code_in 0 127 b0 then utf8_valid s1
      else match s1 with
           | EmptyString => false
           | String b1 s2 =>
               if code_in 194 223 b0 then cont_byte b1 && utf8_valid s2
               else match s2 with
                    | EmptyString => false
                    | String b2 s3 =>
                        if code_in 224 239 b0
                        then lead3_ok b0 b1 && cont_byte b2 && utf8_valid s3
                        else match s3 with
                             | EmptyString => false
                             | String b3 s4 =>
                                 lead4_ok b0 b1 && cont_byte b2 && cont_byte b3
                                 && utf8_valid s4
                             end
                    end
           end
  end.

(** [raw.decode("utf-8")]: the text keeps its bytes. *)
Definition decode_utf8 (raw : string) : result string :=
  if utf8_valid raw then Ok raw else Raise UnicodeDecodeError.

(** The code point that a sequence of two, three or four bytes encodes. *)
Definition byte (c : ascii) : N := N_of_ascii c.

Definition code2 (b0 b1 : ascii) : N :=
  ((byte b0 - 192) * 64 + (byte b1 - 128))%N.

Definition code3 (b0 b1 b2 : ascii) : N :=
  (((byte b0 - 224) * 64 + (byte b1 - 128)) * 64 + (byte b2 - 128))%N.

Definition code4 (b0 b1 b2 b3 : ascii) : N :=
  ((((byte b0 - 240) * 64 + (byte b1 - 128)) * 64 + (byte b2 - 128)) * 64
   + (byte b3 - 128))%N.

End Str.

(** ** The Unicode database of the interpreter

    [re] compiles a [str] pattern Unicode-aware: [\w] matches the underscore
    and every character for which [str.isalnum()] holds.  On ASCII these are
    the letters and the digits.  From U+0080 on the answer is that of the
    Unicode database the interpreter was built with, which grows from one
    version to the next; the model takes it as given, a predicate on code
    points. *)

Module Unicode.

Record database : Type := Database {
  isalnum : N → bool
}.

End Unicode.

(** ** urllib.parse.urlparse(url).netloc

    The network location as CPython's [urlsplit] computes it: leading C0
    control characters and spaces are stripped, tab, CR and LF are removed
    everywhere, a scheme (a letter, then scheme characters, up to the first
    colon) is split off, and what follows a leading [//] up to the first of
    [/], [?] and [#] is the netloc.  The [ValueError] that the library raises
    for a malformed bracketed host, or for a non-ASCII host that NFKC
    normalisation changes, is outside this model. *)

Module Url.
Import Str.

Fixpoint lstrip_c0_space (s : string) : string :=
  match s with
  | EmptyString => EmptyString
  | String c s' => if code_in 0 32 c then lstrip_c0_space s' else s
  end.

Fixpoint remove_unsafe (s : string) : string :=
  match s with
  | EmptyString => EmptyString
  | String c s' =>
      if Ascii.eqb c TAB || Ascii.eqb c CR || Ascii.eqb c LF
      then remove_unsafe s'
      else String c (remove_unsafe s')
  end.

Definition scheme_char (c : ascii) : bool :=
  is_alpha c || is_digit c || mem_char c "+-.".

(** The part of [url] after its scheme, or [url] when it has none. *)
Definition after_scheme (url : string) : string :=
  match find_char ":" url, url with
  | Some (S i), String c0 _ =>
      if is_alpha c0 && all_chars scheme_char (take (S i) url)
      then drop (S (S i)) url
      else url
  | _, _ => url
  end.

(** [_splitnetloc(url, 2)[0]] *)
Fixpoint until_delim (s : string) : string :=
  match s with
  | EmptyString => EmptyString
  | String c s' => if mem_char c "/?#" then EmptyString else String c (until_delim s')
  end.

Definition netloc (url : string) : string :=
  let url := after_scheme (remove_unsafe (lstrip_c0_space url)) in
  if startswith "//" url then until_delim (drop 2 url) else EmptyString.

End Url.

(** ** krb_straighten_username (apiv3_general.py) *)

Module Krb.
Import Str.

(** [re.sub(r'@.*', '', s)]: every match starts at an [@] and runs to the
    end of its line, since [.] does not match a line feed; [inside] says
    that the scan is within such a match. *)
Fixpoint sub_realm (inside : bool) (s : string) : string :=
  match s with
  | EmptyString => EmptyString
  | String c s' =>
      if inside
      then if Ascii.eqb c LF then String c (sub_realm false s')
           else sub_realm true s'
      else if Ascii.eqb c "@" then sub_realm true s'
           else String c (sub_realm false s')
  end.

(** [re.sub('/', '_', s)] *)
Fixpoint sub_slash (s : string) : string :=
  match s with
  | EmptyString => EmptyString
  | String c s' =>
      String (if Ascii.eqb c "/" then "_"%char else c) (sub_slash s')
  end.

(** [\w] on an ASCII character: a letter, a digit or the underscore. *)
Definition word_char (c : ascii) : bool :=
  is_alpha c || is_digit c || Ascii.eqb c "_".

(** The class [[\w.-]] on an ASCII character. *)
Definition name_char (c : ascii) : bool :=
  word_char c || Ascii.eqb c "." || Ascii.eqb c "-".

Section Pattern.
Variable db : Unicode.database.

(** The class [[\w.-]] on a character past ASCII, given by its code point:
    the dot and the dash are ASCII, so only [\w] is left. *)
Definition name_code (cp : N) : bool := Unicode.isalnum db cp.

(** [[\w.-]+$] at the current position, character by character; [seen]
    says that the class has matched at least once.  [$] matches at the end
    of the string and also just before a line feed that ends the string.  A
    character is one ASCII byte or the UTF-8 sequence of a code point. *)
Fixpoint match_name (seen : bool) (s : string) : bool :=
  match s with
  | EmptyString => seen
  | String b0 s1 =>
      if code_in 0 127 b0
      then if name_char b0 then match_name true s1
           else seen && Ascii.eqb b0 LF && negb (truthy_str s1)
      else match s1 with
           | EmptyString => false
           | String b1 s2 =>
               if code_in 194 223 b0
               then cont_byte b1 && name_code (code2 b0 b1)
                    && match_name true s2
               else match s2 with
                    | EmptyString => false
                    | String b2 s3 =>
                        if code_in 224 239 b0
                        then lead3_ok b0 b1 && cont_byte b2
                             && name_code (code3 b0 b1 b2)
                             && match_name true s3
                        else match s3 with
                             | EmptyString => false
                             | String b3 s4 =>
                                 lead4_ok b0 b1 && cont_byte b2 && cont_byte b3
                                 && name_code (code4 b0 b1 b2 b3)
                                 && match_name true s4
                             end
                    end
           end
  end.

(** [bool(re.match(r"^[\w.-]+$", s))] *)
Definition re_match_name (s : string) : bool := match_name false s.

Definition krb_straighten_username (krb_remote_user : string) : option string :=
  let username := sub_realm false krb_remote_user in
  let username := sub_slash username in
  if re_match_name username then Some username else None.

End Pattern.

End Krb.

(** ** The user table *)

Module User.

(** A row of [models.User], with the attributes the facade reads or writes. *)
Record t : Type := mk {
  username : string;
  mail : option string;
  timezone : option string;
  admin : bool
}.

Definition set_mail (v : option string) (u : t) : t :=
  mk (username u) v (timezone u) (admin u).

Definition set_timezone (v : option string) (u : t) : t :=
  mk (username u) (mail u) v (admin u).

End User.

Module UsersLogic.

(** Modelled from the spec: [coprs.logic.users_logic] is not among the
    sources.  The spec has the Identity as "the durable record keyed by
    normalized username", found when the provisioner "looks up an existing
    Identity by that username".  The table is the list of rows the database
    session holds. *)
Abbreviation table := (list User.t).

(** A user object in the program's hands: a row of the table, named by its
    index so that assigning to the object assigns to the row, or an object
    that was just created and is not stored yet. *)
Inductive user_obj : Type :=
  | Row (i : nat)
  | New (u : User.t).

(** Modelled from the spec: [UsersLogic.get(username).first()], the first
    row with that username, or [None]. *)
Definition get_first (username : string) (tbl : table) : option nat :=
  fst <$> list_find (λ u, User.username u = username) tbl.

(** Modelled from the spec: [UsersLogic.create_user_wrapper(username, email,
    timezone=None)] "creates a new Identity" with these attributes; it does
    not store it. *)
Definition create_user_wrapper
    (username : string) (email timezone : option string) : User.t :=
  User.mk username email timezone false.

(** [user.attr = value], through [f]. *)
Definition assign (f : User.t → User.t) (obj : user_obj) (tbl : table)
    : user_obj * table :=
  match obj with
  | Row i => (Row i, alter f i tbl)
  | New u => (New (f u), tbl)
  end.

(** The attributes of the object. *)
Definition deref (tbl : table) (obj : user_obj) : option User.t :=
  match obj with
  | Row i => tbl !! i
  | New u => Some u
  end.

(** Modelled from the spec: the caller, "responsible for persistence", adds
    the returned object to the session and commits; a row stays where it is
    and a new object becomes the last row. *)
Definition session_add (obj : user_obj) (tbl : table) : table :=
  match obj with
  | Row _ => tbl
  | New u => tbl ++ [u]
  end.

Definition rows_named (username : string) (tbl : table) : list User.t :=
  filter (λ u, User.username u = username) tbl.

End UsersLogic.

(** ** The federated response *)

Module TeamsResponse.
Record t : Type := mk { teams : list string }.
End TeamsResponse.

Module AuthResponse.
Record t : Type := mk {
  identity_url : string;
  email : option string;
  timezone : option string;
  extensions : gmap string TeamsResponse.t
}.
End AuthResponse.

(** What [group_names] hands back: [None], a list of names, or a
    dictionary from a source key to a list of names. *)
Inductive names_value : Type :=
  | NamesNone
  | NamesList (names : list string)
  | NamesDict (d : gmap string (list string)).

(** ** FedoraAccounts *)

Module FedoraAccounts.
Import UsersLogic.

(** [username in app.config["ALLOWED_USERS"]] on a list. *)
Definition py_in (x : string) (l : list string) : bool :=
  existsb (String.eqb x) l.

Definition is_user_allowed (cfg : config) (username : option string) : bool :=
  if negb (truthy_opt_str username) then false
  else if negb (USE_ALLOWED_USERS cfg) then true
  else match username with
       | Some u => py_in u (ALLOWED_USERS cfg)
       | None => false
       end.

Definition fed_raw_name (cfg : config) (oidname : string) : string :=
  let oidname_netloc := Url.netloc oidname in
  if negb (truthy_str oidname_netloc) then oidname
  else
    let config_netloc := Url.netloc (OPENID_PROVIDER_URL cfg) in
    Str.replace ("." +:+ config_netloc) "" oidname_netloc.

Definition user_from_response (cfg : config) (resp : AuthResponse.t)
    (tbl : table) : user_obj * table :=
  let username := fed_raw_name cfg (AuthResponse.identity_url resp) in
  let user :=
    match get_first username tbl with
    | Some i => Row i
    | None =>
        New (create_user_wrapper username (AuthResponse.email resp)
               (AuthResponse.timezone resp))
    end in
  let '(user, tbl) := assign (User.set_mail (AuthResponse.email resp)) user tbl in
  let '(user, tbl) :=
    assign (User.set_timezone (AuthResponse.timezone resp)) user tbl in
  (user, tbl).

End FedoraAccounts.

(** ** The login handler around [user_from_response] *)

Module AfterLogin.
Import UsersLogic.

(** Modelled from the spec: the view that calls the facade is not among the
    sources.  The Identity returned is "handed back to the caller (the
    surrounding HTTP layer), which is responsible for persistence": one
    federated login is [user_from_response] followed by the caller adding
    the object to the session. *)
Definition federated_login (cfg : config) (resp : AuthResponse.t)
    (tbl : table) : table :=
  let '(user, tbl) := FedoraAccounts.user_from_response cfg resp tbl in
  session_add user tbl.

End AfterLogin.

(** ** Kerberos *)

Module Kerberos.
Import UsersLogic.

Definition restricted_message (username : string) : string :=
  "Valid GSSAPI authentication supplied for user '" +:+ username +:+
  "', but this user doesn't exist in the Copr build system.  Please log-in " +:+
  "using the web-UI (without GSSAPI) first.".

Definition user_from_username (cfg : config) (username : string)
    (tbl : table) : result user_obj * table :=
  match get_first username tbl with
  | Some i => (Ok (Row i), tbl)
  | None =>
      if FAS_LOGIN cfg then (Raise (AccessRestricted (restricted_message username)), tbl)
      else
        let krb_config := KRB5_LOGIN cfg in
        match krb5_getitem krb_config "email_domain" with
        | Raise e => (Raise e, tbl)
        | Ok domain =>
            let email := username +:+ "@" +:+ domain in
            (Ok (New (create_user_wrapper username (Some email) None)), tbl)
        end
  end.

End Kerberos.

(** ** UserAuth *)

Module UserAuth.
Import UsersLogic.

Definition no_auth_method : exn := CoprHttpException "No auth method available".

Definition user_object (cfg : config) (resp : option AuthResponse.t)
    (username : option string) (tbl : table) : result user_obj * table :=
  let via_kerberos :=
    match username with
    | Some name =>
        if truthy_str name && truthy_krb5 (KRB5_LOGIN cfg)
        then Kerberos.user_from_username cfg name tbl
        else (Raise no_auth_method, tbl)
    | None => (Raise no_auth_method, tbl)
    end in
  match resp with
  | Some r =>
      if FAS_LOGIN cfg
      then let '(u, tbl) := FedoraAccounts.user_from_response cfg r tbl in
           (Ok u, tbl)
      else via_kerberos
  | None => via_kerberos
  end.

End UserAuth.

(** ** The directory: python-ldap and the server behind it *)

Module Ldap.

Inductive scope : Type := SCOPE_BASE | SCOPE_ONELEVEL | SCOPE_SUBTREE.

(** One [search_s] call on a connection opened by [ldap.initialize(url)]. *)
Record request : Type := Request {
  req_url : option string;
  req_base : option string;
  req_scope : scope;
  req_filter : string;
  req_attrs : list string
}.

(** A search result: the entry's DN and its attributes, each with its list of
    values (bytes). *)
Definition entry : Type := string * gmap string (list string).

(** What the server does with a request: it answers with entries, it cannot
    be contacted ([ldap.SERVER_DOWN]), or it fails in another way. *)
Inductive reply : Type :=
  | Entries (l : list entry)
  | Down (desc : string)
  | Failed (desc : string).

(** The server's behaviour over time: its reply to the [n]-th request the
    process sends. *)
Definition server : Type := nat → request → reply.

(** What the client has done so far. *)
Record world : Type := World {
  sent : list request;
  slept_ms : nat;
  printed : list string
}.

Definition world0 : world := World [] 0 [].

(** Computations that may send requests, sleep, print, raise or still be
    running when the fuel is spent ([None]). *)
Definition M (A : Type) : Type := world → option (result A * world).

Definition ret {A} (a : A) : M A := λ w, Some (Ok a, w).
Definition raise {A} (e : exn) : M A := λ w, Some (Raise e, w).
Definition running {A} : M A := λ _, None.

Definition bind {A B} (m : M A) (k : A → M B) : M B :=
  λ w, match m w with
       | Some (Ok a, w') => k a w'
       | Some (Raise e, w') => Some (Raise e, w')
       | None => None
       end.

(** [try: m except ...: h ex] where [h] re-raises what its clause does not
    catch. *)
Definition try_except {A} (m : M A) (h : exn → M A) : M A :=
  λ w, match m w with
       | Some (Raise e, w') => h e w'
       | r => r
       end.

Definition lift {A} (r : result A) : M A := λ w, Some (r, w).

Definition search_s (srv : server) (rq : request) : M (list entry) :=
  λ w,
    let r := match srv (length (sent w)) rq with
             | Entries l => Ok l
             | Down desc => Raise (SERVER_DOWN desc)
             | Failed desc => Raise (LDAPError desc)
             end in
    Some (r, World (sent w ++ [rq]) (slept_ms w) (printed w)).

Definition sleep_ms (ms : nat) : M unit :=
  λ w, Some (Ok tt, World (sent w) (slept_ms w + ms) (printed w)).

Definition print (line : string) : M unit :=
  λ w, Some (Ok tt, World (sent w) (slept_ms w) (printed w ++ [line])).

End Ldap.

Notation "'do' x <- m ; k" := (Ldap.bind m (λ x, k))
  (at level 10, x name, m at level 100, k at level 200, only parsing).
Notation "m ;;; k" := (Ldap.bind m (λ _, k))
  (at level 100, k at level 200, right associativity, only parsing).

(** ** class LDAP *)

Module LDAP.
Import Ldap.

Record t : Type := mk { url : option string; search_string : option string }.

Section Client.
Variable srv : server.

Definition _send_request (self : t) (ou : option string) (attrs : list string)
    (ffilter : string) : M (list entry) :=
  try_except
    (search_s srv (Request (url self) ou SCOPE_ONELEVEL ffilter attrs))
    (λ ex, match ex with
           | SERVER_DOWN desc => raise (CoprHttpException desc)
           | _ => raise ex
           end).

Fixpoint _send_request_repeatedly (fuel : nat) (self : t) (ou : option string)
    (attrs : list string) (ffilter : string) (i : nat) : M (list entry) :=
  match fuel with
  | 0 => running
  | S fuel' =>
      let i := i + 1 in
      try_except
        (_send_request self ou attrs ffilter)
        (λ ex, match ex with
               | SERVER_DOWN desc =>
                   print desc ;;;
                   sleep_ms 500 ;;;
                   _send_request_repeatedly fuel' self ou attrs ffilter i
               | _ => raise ex
               end)
  end.

Definition send_request (fuel : nat) (self : t) (ou : option string)
    (attrs : list string) (ffilter : string) : M (list entry) :=
  _send_request_repeatedly fuel self ou attrs ffilter 0.

(** [filters] is a dictionary, read in insertion order. *)
Definition _build_filter (filters : option (list (string * string))) : string :=
  let filters :=
    match filters with
    | None | Some [] => [("objectclass", "*")]
    | Some f => f
    end in
  let ffilter := map (λ kv, "(" +:+ kv.1 +:+ "=" +:+ kv.2 +:+ ")") filters in
  "(&" +:+ Str.join "" ffilter +:+ ")".

Definition query_one (fuel : nat) (self : t) (attrs : list string)
    (filters : option (list (string * string))) : M entry :=
  let ffilter := _build_filter filters in
  do found <- send_request fuel self (search_string self) attrs ffilter;
  match found with
  | first :: _ => ret first
  | [] => raise IndexError
  end.

Definition get_user (fuel : nat) (self : t) (username : string) : M entry :=
  let attrs := ["cn"; "uid"; "memberOf"; "mail"] in
  let filters := [("objectclass", "*"); ("uid", username)] in
  query_one fuel self attrs (Some filters).

(** [bool(user)] for a search entry, a pair: a tuple of two is truthy. *)
Definition truthy_entry (user : entry) : bool := true.

Definition get_user_groups (fuel : nat) (self : t) (username : string)
    : M (option (list string)) :=
  do user <- get_user fuel self username;
  if negb (truthy_entry user) then ret None
  else match user.2 !! "memberOf" with
       | Some groups => ret (Some groups)
       | None => raise (KeyError "memberOf")
       end.

End Client.
End LDAP.

(** ** OpenIDGroups, LDAPGroups and GroupAuth *)

Module OpenIDGroups.

Definition group_names (resp : AuthResponse.t) : names_value :=
  match AuthResponse.extensions resp !! "lp" with
  | Some team_resp =>
      NamesDict {[ "fas_groups" := TeamsResponse.teams team_resp ]}
  | None => NamesNone
  end.

End OpenIDGroups.

Module LDAPGroups.
Import Ldap.

(** [dict(pairs)]: every element must have two items; a later key replaces
    an earlier one. *)
Fixpoint py_dict (pairs : list (list string)) (acc : gmap string string)
    : result (gmap string string) :=
  match pairs with
  | [] => Ok acc
  | [k; v] :: rest => py_dict rest (<[k := v]> acc)
  | _ :: _ => Raise ValueError
  end.

(** The body of the loop after decoding:
    [dict([tuple(x.split("=")) for x in group.split(",")])["cn"]]. *)
Definition group_cn (group : string) : result string :=
  rbind (py_dict (map (Str.split "=") (Str.split "," group)) ∅) (λ attrs,
    match attrs !! "cn" with
    | Some cn => Ok cn
    | None => Raise (KeyError "cn")
    end).

Fixpoint each_group (raw : list string) (groups : list string)
    : result (list string) :=
  match raw with
  | [] => Ok groups
  | group :: raw' =>
      rbind (Str.decode_utf8 group) (λ group,
      rbind (group_cn group) (λ cn,
      each_group raw' (groups ++ [cn])))
  end.

Definition group_names (srv : server) (fuel : nat) (cfg : config)
    (username : string) : M (list string) :=
  let ldap_client := LDAP.mk (LDAP_URL cfg) (LDAP_SEARCH_STRING cfg) in
  do found <- LDAP.get_user_groups srv fuel ldap_client username;
  match found with
  | None => raise TypeError
  | Some raw => lift (each_group raw [])
  end.

End LDAPGroups.

Module GroupAuth.
Import Ldap.

Definition no_group_source : exn :=
  CoprHttpException "Nowhere to get user groups from".

(** [if resp:] holds exactly when a response object is passed. *)
Definition group_names (srv : server) (fuel : nat) (cfg : config)
    (resp : option AuthResponse.t) (username : option string)
    : M names_value :=
  match resp with
  | Some r => ret (OpenIDGroups.group_names r)
  | None =>
      if FAS_LOGIN cfg && truthy_opt_str username then ret NamesNone
      else
        match username with
        | Some name =>
            if truthy_str name
               && forallb truthy_opt_str [LDAP_URL cfg; LDAP_SEARCH_STRING cfg]
            then do names <- LDAPGroups.group_names srv fuel cfg name;
                 ret (NamesList names)
            else raise no_group_source
        | None => raise no_group_source
        end
  end.

(** The dictionary assigned to [models.User.openid_groups]. *)
Definition groups (srv : server) (fuel : nat) (cfg : config)
    (resp : option AuthResponse.t) (username : option string)
    : M (gmap string names_value) :=
  do names <- group_names srv fuel cfg resp username;
  ret {[ "fas_groups" := names ]}.

End GroupAuth.

(** ** Sample configurations, responses and directories *)

Module Sample.
Import Ldap.

(** Federated login is the primary mechanism. *)
Definition cfg_fas : config :=
  Config true (KrbDict {[ "email_domain" := "example.org" ]})
    (Some "ldap://ldap.example.org") (Some "ou=users,dc=example,dc=org")
    true ["alice"; "bob"] "https://id.example.org/".

(** Kerberos login with a directory for the groups; no federated login. *)
Definition cfg_krb : config :=
  Config false (KrbDict {[ "email_domain" := "example.org" ]})
    (Some "ldap://ldap.example.org") (Some "ou=users,dc=example,dc=org")
    false [] "https://id.example.org/".

Definition resp_teams : AuthResponse.t :=
  AuthResponse.mk "https://alice.id.example.org/" (Some "alice@example.org")
    (Some "UTC") {[ "lp" := TeamsResponse.mk ["devs"; "ops"] ]}.

Definition resp_plain : AuthResponse.t :=
  AuthResponse.mk "https://alice.id.example.org/" (Some "alice@example.org")
    (Some "UTC") ∅.

Definition resp_later : AuthResponse.t :=
  AuthResponse.mk "https://alice.id.example.org/" (Some "alice@fedora.example")
    (Some "Europe/Prague") ∅.

Definition alice_entry : entry :=
  ("uid=alice,ou=users,dc=example,dc=org",
   {[ "memberOf" := ["cn=devs,ou=groups,dc=example,dc=org"] ]}).

(** The server cannot be contacted for the first request and answers from
    the second on. *)
Definition srv_down_once : server :=
  λ n _, match n with
         | 0 => Down "Can't contact LDAP server"
         | S _ => Entries [alice_entry]
         end.

(** The server answers every search with no entry. *)
Definition srv_no_entry : server := λ _ _, Entries [].

Definition srv_alice : server := λ _ _, Entries [alice_entry].

Definition client : LDAP.t :=
  LDAP.mk (Some "ldap://ldap.example.org") (Some "ou=users,dc=example,dc=org").

Definition alice_request : request :=
  Request (Some "ldap://ldap.example.org") (Some "ou=users,dc=example,dc=org")
    SCOPE_ONELEVEL "(&(objectclass=*)(uid=alice))"
    ["cn"; "uid"; "memberOf"; "mail"].

Definition alice_row : User.t :=
  User.mk "alice" (Some "alice@old.example") None false.

Definition between (lo hi cp : N) : bool := ((lo <=? cp) && (cp <=? hi))%N.

(** A database that knows the Latin-1 Supplement and no later block: of
    U+0080 to U+00FF the alphanumeric characters are the two ordinal
    indicators, the micro sign, the superscript digits, the three fractions
    and the letters, which leave out the multiplication and the division
    sign. *)
Definition latin1 : Unicode.database :=
  Unicode.Database (λ cp,
    between 170 170 cp || between 178 179 cp || between 181 181 cp
    || between 185 186 cp || between 188 190 cp || between 192 214 cp
    || between 216 246 cp || between 248 255 cp).

End Sample.

(** ** Shapes of inputs and invariants that the properties name *)

Module Shape.
Import Str.

(** A DNS label: letters, digits and hyphens. *)
Definition host_char (c : ascii) : bool :=
  is_alpha c || is_digit c || Ascii.eqb c "-".

Definition label (s : string) : bool := all_chars host_char s.

(** A host name: labels separated by dots. *)
Definition hostname (s : string) : bool :=
  all_chars (λ c, host_char c || Ascii.eqb c ".") s.

(** Text without the character [sep]. *)
Definition without (sep : ascii) (s : string) : bool :=
  all_chars (λ c, negb (Ascii.eqb c sep)) s.

(** Text free of the two separators of a distinguished name. *)
Definition plain (s : string) : bool :=
  all_chars (λ c, negb (Ascii.eqb c ",") && negb (Ascii.eqb c "=")) s.

(** The segment [key=value] of a distinguished name. *)
Definition segment (kv : string * string) : string := kv.1 +:+ "=" +:+ kv.2.

(** [cn=X,k1=v1,...], the segments joined by commas. *)
Definition group_dn (X : string) (rest : list (string * string)) : string :=
  join "," (map segment (("cn", X) :: rest)).

(** The dictionary built from well-formed pairs: each pair is inserted in
    turn, so a later pair replaces an earlier one with the same key. *)
Definition dict_of (pairs : list (string * string)) (acc : gmap string string)
    : gmap string string :=
  foldl (λ m kv, <[kv.1 := kv.2]> m) acc pairs.

(** The user table keeps the invariant of a key: no two rows share a
    username. *)
Definition unique_usernames (tbl : list User.t) : Prop :=
  NoDup (User.username <$> tbl).

(** The update made from the claims of a response: mail, then timezone. *)
Definition refresh (resp : AuthResponse.t) (u : User.t) : User.t :=
  User.set_timezone (AuthResponse.timezone resp)
    (User.set_mail (AuthResponse.email resp) u).

End Shape.

(** ** Further shapes of inputs that the properties name *)

Module Form.
Import Str.

(** Text that holds none of the characters of [chars]. *)
Definition free_of (chars : string) (s : string) : bool :=
  all_chars (λ c, negb (mem_char c chars)) s.

(** The user part of a Kerberos principal: ASCII name characters and
    slashes. *)
Definition principal_char (c : ascii) : bool :=
  Krb.name_char c || Ascii.eqb c "/".

(** A byte of a name: an ASCII name character, or a byte past ASCII, which
    belongs to the UTF-8 sequence of a character. *)
Definition name_byte (c : ascii) : bool :=
  Krb.name_char c || code_in 128 255 c.


(** The search that looks a user up: one level below [base], by [uid]. *)
Definition user_request (url base : option string) (username : string)
    : Ldap.request :=
  Ldap.Request url base Ldap.SCOPE_ONELEVEL
    ("(&(objectclass=*)(uid=" +:+ username +:+ "))")
    ["cn"; "uid"; "memberOf"; "mail"].

(** The characters with a meaning of their own in a search filter: the two
    parentheses, the asterisk and the backslash. *)
Definition filter_specials : string :=
  String "040" (String "041" (String "042" (String "092" EmptyString))).

(** The group name of one [memberOf] value: decoded, then read. *)
Definition parse_group (raw : string) : result string :=
  rbind (decode_utf8 raw) LDAPGroups.group_cn.

End Form.

(** ** The request context: [flask.g], [flask.session], the log *)

Module Site.
Import UsersLogic.

(** Modelled from the spec: [models.User] and [models.Krb5Login] are not
    among the sources.  The name of a user is the username the Identity is
    "keyed by"; a [Krb5Login] row is the spec's DirectoryBinding, "a
    secondary mapping from a directory-mechanism principal to an Identity",
    kept as the principal and the row of the user. *)
Definition name (u : User.t) : string := User.username u.

(** [flask.session], a dictionary.  Under the key [_flashes]
    [flask.flash] keeps the messages not yet shown, a list of pairs of a
    category and a message; [flashes] is that entry, [None] when the key is
    absent.  Under every other key the modelled code keeps text ([openid],
    [krb5_login]); [entries] are those entries. *)
Record session_t : Type := Session {
  entries : gmap string string;
  flashes : option (list (string * string))
}.

(** What a view reads and writes besides the directory: the user table, the
    column [openid_groups] by row, the [Krb5Login] rows, [flask.g.user] (the
    user object of the request, which is only read), [flask.session], and
    the lines logged. *)
Record app : Type := App {
  users : table;
  openid_groups : gmap nat (gmap string names_value);
  krb5_logins : list (string * nat);
  g_user : option User.t;
  session : session_t;
  logged : list string
}.

(** [session.get("_flashes", [])] *)
Definition flashed (st : app) : list (string * string) :=
  default [] (flashes (session st)).

Definition log (line : string) (st : app) : app :=
  App (users st) (openid_groups st) (krb5_logins st) (g_user st) (session st)
    (logged st ++ [line]).

Definition set_session (s : session_t) (st : app) : app :=
  App (users st) (openid_groups st) (krb5_logins st) (g_user st) s (logged st).

(** [session[key] = value] and [session.pop(key, None)] for a key that holds
    text. *)
Definition set_entry (key value : string) (st : app) : app :=
  set_session
    (Session (<[key := value]> (entries (session st))) (flashes (session st)))
    st.

Definition pop_entry (key : string) (st : app) : app :=
  set_session
    (Session (delete key (entries (session st))) (flashes (session st))) st.

(** [flask.flash(message, category)]: the pair is appended to the list
    under [_flashes], which is stored back into the session. *)
Definition flash (message category : string) (st : app) : app :=
  set_session
    (Session (entries (session st)) (Some (flashed st ++ [(category, message)])))
    st.

Definition set_g_user (u : option User.t) (st : app) : app :=
  App (users st) (openid_groups st) (krb5_logins st) u (session st) (logged st).

Definition set_users (tbl : table) (st : app) : app :=
  App tbl (openid_groups st) (krb5_logins st) (g_user st) (session st)
    (logged st).

Definition set_krb5_logins (rows : list (string * nat)) (st : app) : app :=
  App (users st) (openid_groups st) rows (g_user st) (session st) (logged st).

Definition set_openid_groups (g : gmap nat (gmap string names_value))
    (st : app) : app :=
  App (users st) g (krb5_logins st) (g_user st) (session st) (logged st).

(** What a view hands back: a redirect, or the JSON of a user's
    [to_dict()]. *)
Inductive response : Type :=
  | Redirect (location : string)
  | Jsonify (user : User.t).

(** What a view may raise: the exceptions of the facade, and the
    [AttributeError] of an attribute read or written on [None]. *)
Inductive raised : Type :=
  | Exn (e : exn)
  | AttributeError (attr : string).

Inductive vresult (A : Type) : Type :=
  | Done (a : A)
  | Raised (e : raised).
Arguments Done {A} a.
Arguments Raised {A} e.

End Site.

(** ** auth.py: the session markers *)

Module AuthSession.
Import Site.

(** [FedoraAccounts.username] *)
Definition FedoraAccounts_username (cfg : config) (st : app) : option string :=
  match entries (session st) !! "openid" with
  | Some openid => Some (FedoraAccounts.fed_raw_name cfg openid)
  | None => None
  end.

(** [Kerberos.username] *)
Definition Kerberos_username (st : app) : option string :=
  match entries (session st) !! "krb5_login" with
  | Some login => Some login
  | None => None
  end.

(** [UserAuth.current_username]: [x or y] is [x] when [x] is truthy. *)
Definition UserAuth_current_username (cfg : config) (st : app)
    : option string :=
  if truthy_opt_str (FedoraAccounts_username cfg st)
  then FedoraAccounts_username cfg st
  else Kerberos_username st.

(** [FedoraAccounts.logout]: [flask.session.pop("openid", None)] *)
Definition FedoraAccounts_logout (st : app) : app := pop_entry "openid" st.

(** [Kerberos.logout] *)
Definition Kerberos_logout (st : app) : app := pop_entry "krb5_login" st.

(** [UserAuth.logout]; [next_url] is what [oid.get_next_url()] gives. *)
Definition UserAuth_logout (next_url : string) (st : app) : response * app :=
  let st :=
    match g_user st with
    | Some u => log ("User '" +:+ name u +:+ "' logging out") st
    | None => st
    end in
  let st := FedoraAccounts_logout st in
  let st := Kerberos_logout st in
  let st := flash "You were signed out" "message" st in
  (Redirect next_url, st).

End AuthSession.

(** ** apiv3_general.py: the GSSAPI login view *)

Module Gssapi.
Import Site UsersLogic.

(** What the view reads of the request and of the process: the path with
    its query string, the WSGI environment, the environment of the process,
    [app.config["DEBUG"]], and what [oid.get_next_url()] gives. *)
Record req : Type := Req {
  full_path : string;
  environ : gmap string string;
  os_environ : gmap string string;
  DEBUG : bool;
  next_url : string
}.

Definition auth_check_response (st : app) : vresult User.t :=
  match g_user st with
  | Some u => Done u
  | None => Raised (AttributeError "to_dict")
  end.

Definition gssapi_login_action (rq : req) (st : app) : vresult response :=
  if Str.occurs "web-ui" (full_path rq) then Done (Redirect (next_url rq))
  else match auth_check_response st with
       | Done d => Done (Jsonify d)
       | Raised e => Raised e
       end.

Definition auth_403 {A : Type} (message : string) : vresult A :=
  Raised (Exn (AccessRestricted ("Can't log-in using GSSAPI: " +:+ message))).

(** The WSGI environment after the override for local testing. *)
Definition effective_environ (rq : req) : gmap string string :=
  if DEBUG rq
  then match os_environ rq !! "TEST_REMOTE_USER" with
       | Some v => <["REMOTE_USER" := v]> (environ rq)
       | None => environ rq
       end
  else environ rq.

(** Modelled from the spec:
    [Krb5Login.query.filter(Krb5Login.primary == username).first()], the
    first binding of the principal. *)
Definition find_krb_login (username : string) (rows : list (string * nat))
    : option (string * nat) :=
  snd <$> list_find (λ row, row.1 = username) rows.

(** Modelled from the spec: storing the binding stores the user it refers
    to; a row stays where it is and a new object becomes the last row. *)
Definition commit_user (obj : user_obj) (tbl : table) : nat * table :=
  match obj with
  | Row i => (i, tbl)
  | New u => (length tbl, tbl ++ [u])
  end.

Definition nocred : string :=
  "Kerberos authentication failed (no credentials provided)".

(** The part of the view after the user is at hand: the groups are looked
    up and assigned, the user is stored, and the login is recorded. *)
Definition finish_login (srv : Ldap.server) (fuel : nat) (cfg : config)
    (rq : req) (username : string) (uid : nat) (st : app) (w : Ldap.world)
    : option (vresult response * app * Ldap.world) :=
  match GroupAuth.groups srv fuel cfg None (Some username) w with
  | None => None
  | Some (Raise e, w) => Some (Raised (Exn e), st, w)
  | Some (Ok groups, w) =>
      match users st !! uid with
      | None => Some (Raised (AttributeError "openid_groups"), st, w)
      | Some user =>
          let st := set_openid_groups (<[uid := groups]> (openid_groups st)) st in
          let st := set_g_user (Some user) st in
          let st := set_entry "krb5_login" (name user) st in
          let st := log ((if User.admin user then "Admin" else "User")
                         +:+ " '" +:+ name user +:+ "' logged in") st in
          let st := flash ("Welcome, " +:+ name user) "success" st in
          Some (gssapi_login_action rq st, st, w)
      end
  end.

(** Modelled from the spec: [coprs.exceptions] is not among the sources;
    [str(ex)] of an [AccessRestricted] is the message it was raised with. *)
Definition str_of_restricted (msg : string) : string := msg.

(** [gssapi_login]: the view itself.  [db] is the Unicode database that the
    pattern of [krb_straighten_username] reads. *)
Definition gssapi_login (db : Unicode.database) (srv : Ldap.server)
    (fuel : nat) (cfg : config) (rq : req) (st : app) (w : Ldap.world)
    : option (vresult response * app * Ldap.world) :=
  match g_user st with
  | Some _ => Some (gssapi_login_action rq st, st, w)
  | None =>
      match effective_environ rq !! "REMOTE_USER" with
      | None => Some (auth_403 nocred, st, w)
      | Some krb_username =>
          let st := log ("krb5 login attempt: " +:+ krb_username) st in
          match Krb.krb_straighten_username db krb_username with
          | None => Some (auth_403 ("invalid krb5 username: " +:+ krb_username), st, w)
          | Some username =>
              if negb (truthy_str username)
              then Some (auth_403 ("invalid krb5 username: " +:+ krb_username), st, w)
              else
                match find_krb_login username (krb5_logins st) with
                | Some krb_login =>
                    finish_login srv fuel cfg rq username krb_login.2 st w
                | None =>
                    match UserAuth.user_object cfg None (Some username) (users st) with
                    | (Raise (AccessRestricted msg), tbl) =>
                        Some (auth_403 (str_of_restricted msg),
                              set_users tbl st, w)
                    | (Raise e, tbl) => Some (Raised (Exn e), set_users tbl st, w)
                    | (Ok user, tbl) =>
                        let st := set_users tbl st in
                        let st := log ("First krb5 login for user '" +:+ username
                                       +:+ "', creating a database record") st in
                        let '(uid, tbl) := commit_user user (users st) in
                        let st := set_users tbl st in
                        let st := set_krb5_logins
                                    (krb5_logins st ++ [(username, uid)]) st in
                        finish_login srv fuel cfg rq username uid st w
                    end
                end
          end
      end
  end.

End Gssapi.

(** ** Invariants of the view's state that the properties name *)

Module SiteShape.
Import Site.

(** Every binding refers to a row of the user table (a foreign key). *)
Definition bindings_valid (st : app) : Prop :=
  Forall (λ row : string * nat, row.2 < length (users st)) (krb5_logins st).

(** [st1] is [st] with at most one user row and at most one binding added
    at the end, valid bindings kept valid, and the groups, [flask.g.user]
    and the session, its flashed messages included, untouched. *)
Definition extends (st st1 : app) : Prop :=
  (∃ new_users new_logins,
     users st1 = users st ++ new_users
     ∧ krb5_logins st1 = krb5_logins st ++ new_logins
     ∧ length new_users ≤ 1 ∧ length new_logins ≤ 1)
  ∧ (bindings_valid st → bindings_valid st1)
  ∧ openid_groups st1 = openid_groups st
  ∧ g_user st1 = g_user st
  ∧ session st1 = session st
  ∧ flashed st1 = flashed st.

End SiteShape.

(** ** Sample requests and states of the view *)

Module SiteSample.
Import Site Gssapi.

(** Nobody is logged in and nothing is stored. *)
Definition st_empty : app := App [] ∅ [] None (Session ∅ None) [].

(** [alice] is stored and bound to the principal [alice]. *)
Definition st_alice_bound : app :=
  App [Sample.alice_row] ∅ [("alice", 0)] None (Session ∅ None) [].

(** A request of the web UI authenticated as [alice@EXAMPLE.COM]. *)
Definition rq_alice : req :=
  Req "/api_3/gssapi_login/web-ui/?" {[ "REMOTE_USER" := "alice@EXAMPLE.COM" ]}
    ∅ false "/".

(** A request whose principal has no user part. *)
Definition rq_realm_only : req :=
  Req "/api_3/gssapi_login/?" {[ "REMOTE_USER" := "@EXAMPLE.COM" ]} ∅ false "/".

(** A request whose principal holds a multiplication sign, which is past
    ASCII and no word character. *)
Definition rq_times : req :=
  Req "/api_3/gssapi_login/?" {[ "REMOTE_USER" := "3×4@EXAMPLE.COM" ]} ∅ false "/".

(** A request of the web UI authenticated as [josé@EXAMPLE.COM]. *)
Definition rq_jose : req :=
  Req "/api_3/gssapi_login/web-ui/?" {[ "REMOTE_USER" := "josé@EXAMPLE.COM" ]}
    ∅ false "/".

(** A request without credentials. *)
Definition rq_anonymous : req := Req "/api_3/gssapi_login/?" ∅ ∅ false "/".

End SiteSample.

(** * Properties *)

(** ** Facts about the string operations *)

Section StrFacts.
Import Str.

Lemma str_app_cons (c : ascii) (s t : string) :
  String c s +:+ t = String c (s +:+ t).
Proof. reflexivity. Qed.

Lemma str_app_nil_l (t : string) : "" +:+ t = t.
Proof. reflexivity. Qed.

Lemma str_app_nil_r (s : string) : s +:+ "" = s.
Proof.
  induction s as [|c s IH]; [done |]. by rewrite str_app_cons, IH.
Qed.

Lemma str_app_assoc (s1 s2 s3 : string) :
  (s1 +:+ s2) +:+ s3 = s1 +:+ s2 +:+ s3.
Proof.
  induction s1 as [|c s1 IH]; [done |]. by rewrite !str_app_cons, IH.
Qed.

Lemma all_chars_app (p : ascii → bool) (s1 s2 : string) :
  all_chars p (s1 +:+ s2) = all_chars p s1 && all_chars p s2.
Proof.
  induction s1 as [|c s1 IH]; [done |].
  rewrite str_app_cons. simpl. rewrite IH. by rewrite andb_assoc.
Qed.

Lemma all_chars_impl (p q : ascii → bool) (s : string) :
  (∀ c, p c = true → q c = true) → all_chars p s = true → all_chars q s = true.
Proof.
  intros Hpq. induction s as [|c s IH]; simpl; [done |].
  intros [Hc Hs]%andb_prop. rewrite (Hpq c Hc). by apply IH.
Qed.

Lemma startswith_app (old s : string) : startswith old (old +:+ s) = true.
Proof.
  induction old as [|c old IH]; [done |].
  rewrite str_app_cons. simpl. by rewrite Ascii.eqb_refl, IH.
Qed.

Lemma startswith_refl (old : string) : startswith old old = true.
Proof. rewrite <- (str_app_nil_r old) at 2. apply startswith_app. Qed.

Lemma replace_from_skip_all (old new s : string) (skip : nat) :
  String.length s ≤ skip → replace_from old new skip s = "".
Proof.
  revert skip. induction s as [|c s IH]; intros skip Hlen; simpl; [done |].
  simpl in Hlen. destruct skip as [|k]; [lia |]. apply IH. lia.
Qed.

(** Where [old] does not occur, nothing is replaced. *)
Lemma replace_from_absent (old new s : string) :
  occurs old s = false → replace_from old new 0 s = s.
Proof.
  induction s as [|c s IH]; [done |].
  cbn [occurs replace_from]. intros [Hhere Hlater]%orb_false_elim.
  rewrite Hhere. by rewrite IH.
Qed.

(** An occurrence of [old] at the very end, after text that is free of
    the first character of [old], is the one occurrence removed. *)
Lemma replace_from_suffix (d : ascii) (p u : string) :
  all_chars (λ c, negb (Ascii.eqb d c)) u = true →
  replace_from (String d p) "" 0 (u +:+ String d p) = u.
Proof.
  induction u as [|c u IH].
  - intros _. rewrite str_app_nil_l. cbn [replace_from].
    rewrite startswith_refl, str_app_nil_l.
    apply replace_from_skip_all. simpl. lia.
  - cbn [all_chars]. intros [Hc Hu]%andb_prop. rewrite str_app_cons.
    cbn [replace_from startswith]. apply negb_true_iff in Hc. rewrite Hc.
    simpl. by rewrite IH.
Qed.

End StrFacts.

(** ** FedoraAccounts.fed_raw_name *)

Section FedRawName.
Import Str Url Shape FedoraAccounts.

(** What a host-name character is not. *)
Lemma hostname_char_facts (c : ascii) :
  host_char c || Ascii.eqb c "." = true →
  mem_char c "/?#" = false
  ∧ (Ascii.eqb c TAB || Ascii.eqb c CR || Ascii.eqb c LF) = false.
Proof. destruct c as [[] [] [] [] [] [] [] []]; vm_compute; intuition congruence. Qed.

Lemma host_char_not_dot (c : ascii) :
  host_char c = true → negb (Ascii.eqb "." c) = true.
Proof. destruct c as [[] [] [] [] [] [] [] []]; vm_compute; congruence. Qed.

Lemma until_delim_hostname (h rest : string) :
  hostname h = true → until_delim (h +:+ String "/" rest) = h.
Proof.
  induction h as [|c h IH]; [done |].
  cbn [hostname all_chars]. intros [Hc Hh]%andb_prop.
  rewrite str_app_cons. cbn [until_delim].
  destruct (hostname_char_facts c Hc) as [-> _]. by rewrite (IH Hh).
Qed.

Lemma remove_unsafe_hostname (h rest : string) :
  hostname h = true → remove_unsafe (h +:+ rest) = h +:+ remove_unsafe rest.
Proof.
  induction h as [|c h IH]; [done |].
  cbn [hostname all_chars]. intros [Hc Hh]%andb_prop.
  rewrite !str_app_cons. cbn [remove_unsafe].
  destruct (hostname_char_facts c Hc) as [_ ->]. by rewrite (IH Hh).
Qed.

(** The network location of [https://<host>/<path>] is the host. *)
Lemma netloc_https (h path : string) :
  hostname h = true → netloc ("https://" +:+ h +:+ "/" +:+ path) = h.
Proof.
  intros Hh. unfold netloc.
  change (lstrip_c0_space ("https://" +:+ h +:+ "/" +:+ path))
    with ("https://" +:+ h +:+ "/" +:+ path).
  change (remove_unsafe ("https://" +:+ h +:+ "/" +:+ path))
    with ("https://" +:+ remove_unsafe (h +:+ "/" +:+ path)).
  rewrite (remove_unsafe_hostname _ _ Hh).
  change (remove_unsafe ("/" +:+ path)) with (String "/" (remove_unsafe path)).
  change (after_scheme ("https://" +:+ h +:+ String "/" (remove_unsafe path)))
    with ("//" +:+ h +:+ String "/" (remove_unsafe path)).
  change (startswith "//" ("//" +:+ h +:+ String "/" (remove_unsafe path)))
    with true.
  cbn [drop String.append]. by apply until_delim_hostname.
Qed.

Lemma hostname_subdomain (u p : string) :
  label u = true → hostname p = true → hostname (u +:+ "." +:+ p) = true.
Proof.
  intros Hu Hp. unfold hostname. rewrite all_chars_app.
  apply andb_true_intro. split; [| exact Hp].
  revert Hu. apply all_chars_impl. intros c ->. done.
Qed.

(** C3, the two URLs of the scenario: the name computed is the host of the
    identity URL, neither the path [alice] nor the URL itself. *)
Lemma fed_raw_name_scenario_fails :
  fed_raw_name Sample.cfg_fas "https://id.example.org/alice" = "id.example.org"
  ∧ fed_raw_name Sample.cfg_fas "https://id.example.org/alice" ≠ "alice"
  ∧ fed_raw_name Sample.cfg_fas "https://other.example.com/alice"
      = "other.example.com"
  ∧ fed_raw_name Sample.cfg_fas "https://other.example.com/alice"
      ≠ "https://other.example.com/alice".
Proof. vm_compute. repeat split; congruence. Qed.

(** C3, amended: when the host of the identity URL is the user name
    followed by a dot and the provider's host, the result is the user name;
    when the host of the identity URL does not contain a dot followed by the
    provider's host, the result is that host; a name without a network
    location is returned as it is. *)
Theorem fed_raw_name_host_rule (cfg : config) (u p h path : string) :
  OPENID_PROVIDER_URL cfg = "https://" +:+ p +:+ "/" →
  label u = true →
  hostname p = true →
  hostname h = true →
  h ≠ "" →
  occurs ("." +:+ p) h = false →
  fed_raw_name cfg ("https://" +:+ u +:+ "." +:+ p +:+ "/" +:+ path) = u
  ∧ fed_raw_name cfg ("https://" +:+ h +:+ "/" +:+ path) = h
  ∧ (∀ name, netloc name = "" → fed_raw_name cfg name = name).
Proof.
  intros Hcfg Hu Hp Hh Hne Habsent.
  assert (Hprov : netloc (OPENID_PROVIDER_URL cfg) = p).
  { rewrite Hcfg. rewrite <- (str_app_nil_r "/"). by apply netloc_https. }
  split; [| split].
  - unfold fed_raw_name.
    replace ("https://" +:+ u +:+ "." +:+ p +:+ "/" +:+ path)
      with ("https://" +:+ (u +:+ "." +:+ p) +:+ "/" +:+ path)
      by (by rewrite !str_app_assoc).
    rewrite netloc_https by (by apply hostname_subdomain).
    rewrite Hprov.
    destruct (truthy_str (u +:+ "." +:+ p)) eqn:Hnonempty.
    + cbn [negb]. unfold replace. change ("." +:+ p) with (String "." p).
      apply replace_from_suffix.
      revert Hu. apply all_chars_impl. apply host_char_not_dot.
    + destruct u; discriminate Hnonempty.
  - unfold fed_raw_name. rewrite netloc_https by done. rewrite Hprov.
    destruct h as [|c h]; [done |]. cbn [truthy_str negb].
    unfold replace. change ("." +:+ p) with (String "." p) in *.
    by apply replace_from_absent.
  - intros name Hname. unfold fed_raw_name. by rewrite Hname.
Qed.

Lemma fed_raw_name_host_rule_witness :
  fed_raw_name Sample.cfg_fas "https://alice.id.example.org/alice" = "alice"
  ∧ fed_raw_name Sample.cfg_fas "https://other.example.com/alice"
      = "other.example.com"
  ∧ (∀ name, netloc name = "" → fed_raw_name Sample.cfg_fas name = name).
Proof.
  apply (fed_raw_name_host_rule Sample.cfg_fas "alice" "id.example.org"
           "other.example.com" "alice");
    [reflexivity | reflexivity | reflexivity | reflexivity | discriminate
    | reflexivity].
Defined.

End FedRawName.

(** ** FedoraAccounts.is_user_allowed *)

Section AllowList.
Import FedoraAccounts.

Lemma py_in_spec (x : string) (l : list string) : py_in x l = true ↔ x ∈ l.
Proof.
  unfold py_in. rewrite existsb_exists. split.
  - intros (y & Hy & Heq). apply String.eqb_eq in Heq. subst y.
    by apply list_elem_of_In.
  - intros Hx. exists x. split; [by apply list_elem_of_In | apply String.eqb_refl].
Qed.

(** C10: the gate answers for every input; it refuses [None] and the empty
    name, lets every other name through when [USE_ALLOWED_USERS] is off, and
    when it is on lets through exactly the members of [ALLOWED_USERS]. *)
Theorem is_user_allowed_gate (cfg : config) :
  is_user_allowed cfg None = false
  ∧ is_user_allowed cfg (Some "") = false
  ∧ ∀ u : string, u ≠ "" →
      (USE_ALLOWED_USERS cfg = false → is_user_allowed cfg (Some u) = true)
      ∧ (USE_ALLOWED_USERS cfg = true →
         (is_user_allowed cfg (Some u) = true ↔ u ∈ ALLOWED_USERS cfg)).
Proof.
  split; [done | split; [done |]].
  intros u Hu. unfold is_user_allowed.
  destruct u as [|c u]; [done |]. cbn [truthy_opt_str truthy_str negb].
  split; intros ->; cbn [negb]; [done | apply py_in_spec].
Qed.

Lemma is_user_allowed_gate_witness :
  is_user_allowed Sample.cfg_fas (Some "alice") = true
  ∧ is_user_allowed Sample.cfg_krb (Some "carol") = true.
Proof.
  split.
  - destruct (is_user_allowed_gate Sample.cfg_fas) as (_ & _ & Hgate).
    destruct (Hgate "alice") as [_ Hon]; [discriminate |].
    apply Hon; [reflexivity |]. apply list_elem_of_here.
  - destruct (is_user_allowed_gate Sample.cfg_krb) as (_ & _ & Hgate).
    destruct (Hgate "carol") as [Hoff _]; [discriminate |].
    apply Hoff. reflexivity.
Defined.

End AllowList.

(** ** The user table *)

Section Table.
Import UsersLogic.

Lemma get_first_Some (name : string) (tbl : table) (i : nat) :
  get_first name tbl = Some i →
  ∃ u, tbl !! i = Some u ∧ User.username u = name.
Proof.
  unfold get_first. destruct (list_find _ tbl) as [[j u]|] eqn:Hfind; [| done].
  intros [= <-]. apply list_find_Some in Hfind as (Hlook & Hname & _). eauto.
Qed.

Lemma get_first_None (name : string) (tbl : table) :
  get_first name tbl = None ↔ ∀ u, u ∈ tbl → User.username u ≠ name.
Proof.
  unfold get_first. rewrite fmap_None, list_find_None, list.Forall_forall.
  split; intros H u; apply H.
Qed.

Lemma get_first_is_Some (name : string) (tbl : table) (u : User.t) :
  u ∈ tbl → User.username u = name → is_Some (get_first name tbl).
Proof.
  intros Hin Hname. destruct (get_first name tbl) eqn:Hget; [eauto |].
  rewrite get_first_None in Hget. by destruct (Hget u Hin).
Qed.

End Table.

(** ** Kerberos.user_from_username *)

Section KerberosProvisioning.
Import UsersLogic Kerberos.

(** C4: an Identity stored under the username is returned as it is stored
    and the table is left alone; without one, the call raises
    [AccessRestricted] when federated login is on, and otherwise creates an
    Identity whose mail is [username@<email_domain>]. *)
Theorem user_from_username_cases
    (cfg : config) (username : string) (tbl : table) :
  (∀ u, u ∈ tbl → User.username u = username →
     ∃ i stored,
       user_from_username cfg username tbl = (Ok (Row i), tbl)
       ∧ deref tbl (Row i) = Some stored ∧ User.username stored = username)
  ∧ ((∀ u, u ∈ tbl → User.username u ≠ username) →
     (FAS_LOGIN cfg = true →
        user_from_username cfg username tbl
        = (Raise (AccessRestricted (restricted_message username)), tbl))
     ∧ (∀ domain,
          FAS_LOGIN cfg = false →
          krb5_getitem (KRB5_LOGIN cfg) "email_domain" = Ok domain →
          user_from_username cfg username tbl
          = (Ok (New (create_user_wrapper username
                        (Some (username +:+ "@" +:+ domain)) None)), tbl)
          ∧ User.mail (create_user_wrapper username
                         (Some (username +:+ "@" +:+ domain)) None)
            = Some (username +:+ "@" +:+ domain))).
Proof.
  split.
  - intros u Hin Hname.
    destruct (get_first_is_Some username tbl u Hin Hname) as [i Hget].
    destruct (get_first_Some _ _ _ Hget) as (stored & Hlook & Hstored).
    exists i, stored. unfold user_from_username. by rewrite Hget.
  - intros Habsent. apply get_first_None in Habsent.
    unfold user_from_username. rewrite Habsent. split.
    + by intros ->.
    + intros domain -> ->. done.
Qed.

Lemma user_from_username_cases_witness :
  user_from_username Sample.cfg_krb "alice" [Sample.alice_row]
    = (Ok (Row 0), [Sample.alice_row])
  ∧ user_from_username Sample.cfg_fas "bob" [Sample.alice_row]
    = (Raise (AccessRestricted (restricted_message "bob")), [Sample.alice_row])
  ∧ user_from_username Sample.cfg_krb "bob" [Sample.alice_row]
    = (Ok (New (User.mk "bob" (Some "bob@example.org") None false)),
       [Sample.alice_row]).
Proof.
  assert (Hbob : ∀ u, u ∈ [Sample.alice_row] → User.username u ≠ "bob").
  { intros u ->%list_elem_of_singleton. discriminate. }
  split; [| split].
  - destruct (user_from_username_cases Sample.cfg_krb "alice"
                [Sample.alice_row]) as [Hfound _].
    destruct (Hfound Sample.alice_row) as (i & stored & Hres & _);
      [apply list_elem_of_here | reflexivity |].
    reflexivity.
  - destruct (user_from_username_cases Sample.cfg_fas "bob"
                [Sample.alice_row]) as [_ Hnew].
    destruct (Hnew Hbob) as [Hfas _]. apply Hfas. reflexivity.
  - destruct (user_from_username_cases Sample.cfg_krb "bob"
                [Sample.alice_row]) as [_ Hnew].
    destruct (Hnew Hbob) as [_ Hkrb].
    destruct (Hkrb "example.org") as [Hres _]; [reflexivity | reflexivity |].
    exact Hres.
Defined.

End KerberosProvisioning.

(** ** FedoraAccounts.user_from_response *)

Section FederatedProvisioning.
Import UsersLogic FedoraAccounts AfterLogin Shape.

Lemma refresh_username (resp : AuthResponse.t) (u : User.t) :
  User.username (refresh resp u) = User.username u.
Proof. reflexivity. Qed.

Lemma usernames_alter (f : User.t → User.t) (i : nat) (tbl : table) :
  (∀ u, User.username (f u) = User.username u) →
  User.username <$> alter f i tbl = User.username <$> tbl.
Proof.
  intros Hf. revert i. induction tbl as [|x tbl IH]; intros [|i]; simpl; try done.
  - by rewrite Hf.
  - f_equal. apply IH.
Qed.

Lemma rows_named_absent (name : string) (tbl : table) :
  (∀ u, u ∈ tbl → User.username u ≠ name) → rows_named name tbl = [].
Proof.
  intros Habsent. unfold rows_named. induction tbl as [|x tbl IH]; [done |].
  rewrite filter_cons_False.
  - apply IH. intros u Hu. apply Habsent. by apply list_elem_of_further.
  - apply Habsent. apply list_elem_of_here.
Qed.

(** Under the key invariant a stored row is the only row of its name. *)
Lemma rows_named_unique (tbl : table) (i : nat) (x : User.t) :
  unique_usernames tbl → tbl !! i = Some x →
  rows_named (User.username x) tbl = [x].
Proof.
  unfold unique_usernames, rows_named. revert i.
  induction tbl as [|y tbl IH]; intros i Hnodup Hlook; [done |].
  rewrite fmap_cons in Hnodup. apply list.NoDup_cons in Hnodup as [Hfresh Hnodup].
  destruct i as [|i]; simpl in Hlook.
  - injection Hlook as ->. rewrite filter_cons_True by done. f_equal.
    apply rows_named_absent. intros u Hu Heq. apply Hfresh.
    rewrite <- Heq. apply list_elem_of_fmap. eauto.
  - rewrite filter_cons_False; [by apply (IH i) |].
    intros Heq. apply Hfresh. rewrite Heq.
    apply list_elem_of_fmap. exists x. split; [done |].
    by apply list_elem_of_lookup_2 in Hlook.
Qed.

(** One federated login, by cases on whether the name is stored. *)
Lemma federated_login_found (cfg : config) (resp : AuthResponse.t)
    (tbl : table) (i : nat) :
  get_first (fed_raw_name cfg (AuthResponse.identity_url resp)) tbl = Some i →
  federated_login cfg resp tbl
  = alter (User.set_timezone (AuthResponse.timezone resp)) i
      (alter (User.set_mail (AuthResponse.email resp)) i tbl).
Proof.
  intros Hget. unfold federated_login, user_from_response. by rewrite Hget.
Qed.

Lemma federated_login_new (cfg : config) (resp : AuthResponse.t) (tbl : table) :
  get_first (fed_raw_name cfg (AuthResponse.identity_url resp)) tbl = None →
  federated_login cfg resp tbl
  = tbl ++ [User.mk (fed_raw_name cfg (AuthResponse.identity_url resp))
              (AuthResponse.email resp) (AuthResponse.timezone resp) false].
Proof.
  intros Hget. unfold federated_login, user_from_response. by rewrite Hget.
Qed.

(** After one login there is exactly one row of the name, it carries the
    claims of the response, and the key invariant still holds. *)
Lemma federated_login_once (cfg : config) (resp : AuthResponse.t) (tbl : table) :
  unique_usernames tbl →
  ∃ u,
    rows_named (fed_raw_name cfg (AuthResponse.identity_url resp))
      (federated_login cfg resp tbl) = [u]
    ∧ User.mail u = AuthResponse.email resp
    ∧ User.timezone u = AuthResponse.timezone resp
    ∧ unique_usernames (federated_login cfg resp tbl).
Proof.
  intros Huniq.
  set (name := fed_raw_name cfg (AuthResponse.identity_url resp)).
  destruct (get_first name tbl) as [i|] eqn:Hget.
  - rewrite (federated_login_found _ _ _ _ Hget).
    destruct (get_first_Some _ _ _ Hget) as (x & Hlook & Hname).
    set (tbl' := alter _ i (alter _ i tbl)).
    assert (Hnames : User.username <$> tbl' = User.username <$> tbl).
    { unfold tbl'. by rewrite !usernames_alter. }
    assert (Huniq' : unique_usernames tbl').
    { unfold unique_usernames. by rewrite Hnames. }
    assert (Hlook' : tbl' !! i = Some (refresh resp x)).
    { unfold tbl'. rewrite !list_lookup_alter_eq, Hlook. done. }
    exists (refresh resp x). repeat split; [| done].
    rewrite <- Hname, <- (refresh_username resp x).
    by apply (rows_named_unique tbl' i).
  - rewrite (federated_login_new _ _ _ Hget). fold name.
    exists (User.mk name (AuthResponse.email resp)
              (AuthResponse.timezone resp) false).
    pose proof (proj1 (get_first_None name tbl) Hget) as Habsent.
    repeat split.
    + unfold rows_named. rewrite list.filter_app.
      fold (rows_named name tbl). rewrite (rows_named_absent _ _ Habsent).
      by rewrite filter_cons_True.
    + unfold unique_usernames. rewrite fmap_app. apply list.NoDup_app.
      split; [done | split; [| apply list.NoDup_singleton]].
      intros n Hn ->%list_elem_of_singleton.
      apply list_elem_of_fmap in Hn as (u & Hu & Hin). by apply (Habsent u).
Qed.

(** C6: two federated logins with the same identity URL leave exactly one
    row for the normalised username, and its mail and timezone are the
    claims of the second response. *)
Theorem federated_login_twice
    (cfg : config) (first second : AuthResponse.t) (tbl : table) :
  AuthResponse.identity_url first = AuthResponse.identity_url second →
  unique_usernames tbl →
  ∃ u,
    rows_named (fed_raw_name cfg (AuthResponse.identity_url first))
      (federated_login cfg second (federated_login cfg first tbl)) = [u]
    ∧ User.mail u = AuthResponse.email second
    ∧ User.timezone u = AuthResponse.timezone second.
Proof.
  intros Hurl Huniq.
  destruct (federated_login_once cfg first tbl Huniq) as (_ & _ & _ & _ & Huniq1).
  destruct (federated_login_once cfg second _ Huniq1) as (u & Hrows & Hmail & Htz & _).
  exists u. rewrite Hurl. done.
Qed.

Lemma federated_login_twice_witness :
  ∃ u,
    rows_named "alice"
      (federated_login Sample.cfg_fas Sample.resp_later
         (federated_login Sample.cfg_fas Sample.resp_plain [])) = [u]
    ∧ User.mail u = Some "alice@fedora.example"
    ∧ User.timezone u = Some "Europe/Prague".
Proof.
  apply (federated_login_twice Sample.cfg_fas Sample.resp_plain
           Sample.resp_later []); [reflexivity | apply NoDup_nil_2].
Defined.

End FederatedProvisioning.

(** ** krb_straighten_username *)

Section Straighten.
Import Str Krb Form.
Variable db : Unicode.database.

Example straighten_realm :
  krb_straighten_username db "alice@EXAMPLE.COM" = Some "alice".
Proof. reflexivity. Qed.

Example straighten_service :
  krb_straighten_username db "alice/admin@EXAMPLE.COM" = Some "alice_admin".
Proof. reflexivity. Qed.

Example straighten_rejects :
  krb_straighten_username db "bad user!" = None.
Proof. reflexivity. Qed.

Lemma code_in_spec (lo hi : nat) (c : ascii) :
  code_in lo hi c = true ↔ lo ≤ nat_of_ascii c ≤ hi.
Proof.
  unfold code_in. rewrite andb_true_iff, !Nat.leb_le. done.
Qed.

Lemma past_ascii (c : ascii) :
  code_in 0 127 c = false → code_in 128 255 c = true.
Proof. destruct c as [[] [] [] [] [] [] [] []]; vm_compute; congruence. Qed.

Lemma name_char_ascii (c : ascii) :
  name_char c = true → code_in 0 127 c = true.
Proof. destruct c as [[] [] [] [] [] [] [] []]; vm_compute; congruence. Qed.

Lemma cont_byte_past_ascii (c : ascii) :
  cont_byte c = true → code_in 128 255 c = true.
Proof. unfold cont_byte. rewrite !code_in_spec. lia. Qed.

Lemma lead3_past_ascii (b0 b1 : ascii) :
  lead3_ok b0 b1 = true → code_in 128 255 b1 = true.
Proof.
  unfold lead3_ok, cont_byte.
  rewrite !orb_true_iff, !andb_true_iff, !orb_true_iff, !code_in_spec. lia.
Qed.

Lemma lead4_past_ascii (b0 b1 : ascii) :
  lead4_ok b0 b1 = true → code_in 128 255 b1 = true.
Proof.
  unfold lead4_ok, cont_byte.
  rewrite !orb_true_iff, !andb_true_iff, !code_in_spec. lia.
Qed.

Lemma name_byte_past_ascii (c : ascii) :
  code_in 128 255 c = true → name_byte c = true.
Proof. unfold name_byte. intros ->. apply orb_true_r. Qed.

(** What the anchored pattern lets through: ASCII name characters and
    well-formed sequences past ASCII, and then nothing or one final line
    feed; at least one character when none was seen before. *)
Lemma match_name_shape (n : nat) (seen : bool) (s : string) :
  String.length s ≤ n →
  match_name db seen s = true →
  ∃ w, all_chars name_byte w = true
       ∧ (s = w ∨ s = w +:+ String LF "")
       ∧ (seen = false → w ≠ "").
Proof.
  revert seen s. induction n as [|n IH]; intros seen s Hlen Hm.
  { destruct s; [| cbn in Hlen; lia]. cbn in Hm. subst seen.
    exists "". split; [done |]. split; [by left | done]. }
  destruct s as [|b0 s1].
  { cbn in Hm. subst seen. exists "". split; [done |]. split; [by left | done]. }
  cbn [String.length] in Hlen. cbn [match_name] in Hm.
  destruct (code_in 0 127 b0) eqn:Hascii.
  - destruct (name_char b0) eqn:Hc.
    + apply IH in Hm as (w & Hw & Hs & _); [| lia].
      exists (String b0 w). cbn [all_chars]. unfold name_byte at 1.
      rewrite Hc, Hw. split; [done |]. split; [| done].
      destruct Hs as [-> | ->]; [by left | by right].
    + apply andb_prop in Hm as [[-> Hlf]%andb_prop Hend].
      apply Ascii.eqb_eq in Hlf as ->. destruct s1; [| done].
      exists "". split; [done |]. split; [by right | done].
  - apply past_ascii, name_byte_past_ascii in Hascii as H0.
    destruct s1 as [|b1 s2]; [done |]. cbn [String.length] in Hlen.
    destruct (code_in 194 223 b0).
    { apply andb_prop in Hm as [[H1 _]%andb_prop Hm].
      apply cont_byte_past_ascii, name_byte_past_ascii in H1.
      apply IH in Hm as (w & Hw & Hs & _); [| lia].
      exists (String b0 (String b1 w)). cbn [all_chars].
      rewrite H0, H1, Hw. split; [done |]. split; [| done].
      destruct Hs as [-> | ->]; [by left | by right]. }
    destruct s2 as [|b2 s3]; [done |]. cbn [String.length] in Hlen.
    destruct (code_in 224 239 b0).
    { apply andb_prop in Hm as [[[H1 H2]%andb_prop _]%andb_prop Hm].
      apply lead3_past_ascii, name_byte_past_ascii in H1.
      apply cont_byte_past_ascii, name_byte_past_ascii in H2.
      apply IH in Hm as (w & Hw & Hs & _); [| lia].
      exists (String b0 (String b1 (String b2 w))). cbn [all_chars].
      rewrite H0, H1, H2, Hw. split; [done |]. split; [| done].
      destruct Hs as [-> | ->]; [by left | by right]. }
    destruct s3 as [|b3 s4]; [done |]. cbn [String.length] in Hlen.
    apply andb_prop in Hm as [[[[H1 H2]%andb_prop H3]%andb_prop _]%andb_prop Hm].
    apply lead4_past_ascii, name_byte_past_ascii in H1.
    apply cont_byte_past_ascii, name_byte_past_ascii in H2.
    apply cont_byte_past_ascii, name_byte_past_ascii in H3.
    apply IH in Hm as (w & Hw & Hs & _); [| lia].
    exists (String b0 (String b1 (String b2 (String b3 w)))). cbn [all_chars].
    rewrite H0, H1, H2, H3, Hw. split; [done |]. split; [| done].
    destruct Hs as [-> | ->]; [by left | by right].
Qed.

(** Over ASCII name characters the pattern moves on byte by byte. *)
Lemma match_name_ascii (w tail : string) (seen : bool) :
  all_chars name_char w = true →
  match_name db seen (w +:+ tail) = match_name db (seen || truthy_str w) tail.
Proof.
  revert seen. induction w as [|c w IH]; intros seen.
  - intros _. by rewrite str_app_nil_l, orb_false_r.
  - cbn [all_chars]. intros [Hc Hw]%andb_prop. rewrite str_app_cons.
    cbn [match_name truthy_str]. rewrite (name_char_ascii c Hc), Hc.
    rewrite (IH true Hw). by rewrite orb_true_r.
Qed.

(** What a call that returns a name has computed. *)
Lemma krb_straighten_username_Some (raw u : string) :
  krb_straighten_username db raw = Some u →
  u = sub_slash (sub_realm false raw) ∧ re_match_name db u = true.
Proof.
  unfold krb_straighten_username.
  destruct (re_match_name db (sub_slash (sub_realm false raw))) eqn:Hm; [| done].
  by intros [= <-].
Qed.

(** Every name the function returns is a non-empty run of name characters,
    possibly followed by one line feed. *)
Lemma krb_straighten_username_shape (raw u : string) :
  krb_straighten_username db raw = Some u →
  ∃ w, w ≠ "" ∧ all_chars name_byte w = true
       ∧ (u = w ∨ u = w +:+ String LF "").
Proof.
  intros [_ Hm]%krb_straighten_username_Some.
  destruct (match_name_shape _ _ _ (Nat.le_refl _) Hm) as (w & Hw & Hs & Hne).
  exists w. auto.
Qed.

(** A cleaned-up principal made of ASCII name characters is returned. *)
Lemma krb_straighten_username_accepts (raw : string) :
  sub_slash (sub_realm false raw) ≠ "" →
  all_chars name_char (sub_slash (sub_realm false raw)) = true →
  krb_straighten_username db raw = Some (sub_slash (sub_realm false raw)).
Proof.
  unfold krb_straighten_username, re_match_name.
  destruct (sub_slash (sub_realm false raw)) as [|c s]; [done |].
  intros _ Hs. rewrite <- (str_app_nil_r (String c s)).
  by rewrite (match_name_ascii _ _ _ Hs).
Qed.

Lemma name_char_kept (c : ascii) :
  name_char c = true → Ascii.eqb c "@" = false ∧ Ascii.eqb c "/" = false.
Proof. destruct c as [[] [] [] [] [] [] [] []]; vm_compute; intuition congruence. Qed.

Lemma cleaning_keeps_name (w tail : string) :
  all_chars name_char w = true →
  sub_slash (sub_realm false (w +:+ tail))
  = w +:+ sub_slash (sub_realm false tail).
Proof.
  induction w as [|c w IH]; [done |].
  cbn [all_chars]. intros [Hc Hw]%andb_prop. rewrite !str_app_cons.
  destruct (name_char_kept c Hc) as [Hat Hslash].
  cbn [sub_realm]. rewrite Hat. cbn [sub_slash]. rewrite Hslash.
  by rewrite (IH Hw).
Qed.

(** Every ASCII name followed by a line feed comes back with the line
    feed. *)
Lemma krb_straighten_username_keeps_line_feed (w : string) :
  w ≠ "" → all_chars name_char w = true →
  krb_straighten_username db (w +:+ String LF "") = Some (w +:+ String LF "").
Proof.
  intros Hne Hw. unfold krb_straighten_username.
  rewrite (cleaning_keeps_name w _ Hw).
  change (sub_slash (sub_realm false (String LF ""))) with (String LF "").
  unfold re_match_name. rewrite (match_name_ascii _ _ _ Hw).
  by destruct w.
Qed.

(** C5, at a principal that ends in a line feed: the name is returned with
    the line feed, although a line feed is not a name character. *)
Theorem krb_straighten_username_line_feed :
  krb_straighten_username db ("alice" +:+ String LF "")
    = Some ("alice" +:+ String LF "")
  ∧ krb_straighten_username db ("alice@EXAMPLE.COM" +:+ String LF "")
    = Some ("alice" +:+ String LF "")
  ∧ all_chars name_char ("alice" +:+ String LF "") = false.
Proof. repeat split. Qed.

End Straighten.

(** ** GroupAuth.group_names with a response *)

Section GroupsFromResponse.
Import Ldap.

Lemma group_names_with_response (srv : server) (fuel : nat) (cfg : config)
    (resp : AuthResponse.t) (username : option string) (w : world) :
  GroupAuth.group_names srv fuel cfg (Some resp) username w
  = Some (Ok (OpenIDGroups.group_names resp), w).
Proof. reflexivity. Qed.

(** With team data the value is a dictionary keyed [fas_groups], for every
    response, configuration and username. *)
Lemma group_names_with_teams (srv : server) (fuel : nat) (cfg : config)
    (resp : AuthResponse.t) (username : option string) (w : world)
    (team_resp : TeamsResponse.t) :
  AuthResponse.extensions resp !! "lp" = Some team_resp →
  GroupAuth.group_names srv fuel cfg (Some resp) username w
  = Some (Ok (NamesDict {[ "fas_groups" := TeamsResponse.teams team_resp ]}), w).
Proof.
  intros Hlp. rewrite group_names_with_response.
  unfold OpenIDGroups.group_names. by rewrite Hlp.
Qed.

(** C1, at a response with the teams [devs] and [ops]: no request goes to
    the directory, and the value returned is a dictionary holding the list
    under [fas_groups], not the list. *)
Theorem group_names_teams_dict (fuel : nat) (username : option string) :
  GroupAuth.group_names Sample.srv_alice fuel Sample.cfg_krb
    (Some Sample.resp_teams) username world0
  = Some (Ok (NamesDict {[ "fas_groups" := ["devs"; "ops"] ]}), world0)
  ∧ GroupAuth.group_names Sample.srv_alice fuel Sample.cfg_krb
      (Some Sample.resp_teams) username world0
    ≠ Some (Ok (NamesList ["devs"; "ops"]), world0).
Proof.
  rewrite (group_names_with_teams _ _ _ _ _ _ (TeamsResponse.mk ["devs"; "ops"]))
    by reflexivity.
  split; [reflexivity | discriminate].
Qed.

(** The wrapper then nests one dictionary in another. *)
Example groups_nests_dict :
  GroupAuth.groups Sample.srv_alice 1 Sample.cfg_krb
    (Some Sample.resp_teams) (Some "alice") world0
  = Some (Ok {[ "fas_groups" :=
                  NamesDict {[ "fas_groups" := ["devs"; "ops"] ]} ]}, world0).
Proof. reflexivity. Qed.

(** C9: with a response the result is a function of its extension data
    alone, whatever the directory, the configuration and the username are;
    without the [lp] extension it is [None], with nothing sent to the
    directory and nothing raised. *)
Theorem group_names_response_only
    (srv srv' : server) (fuel fuel' : nat) (cfg cfg' : config)
    (resp resp' : AuthResponse.t) (username username' : option string)
    (w : world) :
  AuthResponse.extensions resp = AuthResponse.extensions resp' →
  GroupAuth.group_names srv fuel cfg (Some resp) username w
  = GroupAuth.group_names srv' fuel' cfg' (Some resp') username' w
  ∧ (AuthResponse.extensions resp !! "lp" = None →
     GroupAuth.group_names srv fuel cfg (Some resp) username w
     = Some (Ok NamesNone, w)).
Proof.
  intros Hext. rewrite !group_names_with_response.
  unfold OpenIDGroups.group_names. rewrite <- Hext. split; [done |].
  by intros ->.
Qed.

Lemma group_names_response_only_witness :
  GroupAuth.group_names Sample.srv_alice 0 Sample.cfg_krb
    (Some Sample.resp_plain) (Some "alice") world0
  = GroupAuth.group_names Sample.srv_no_entry 3 Sample.cfg_fas
      (Some Sample.resp_later) None world0
  ∧ (AuthResponse.extensions Sample.resp_plain !! "lp" = None →
     GroupAuth.group_names Sample.srv_alice 0 Sample.cfg_krb
       (Some Sample.resp_plain) (Some "alice") world0
     = Some (Ok NamesNone, world0)).
Proof.
  apply (group_names_response_only Sample.srv_alice Sample.srv_no_entry 0 3
           Sample.cfg_krb Sample.cfg_fas Sample.resp_plain Sample.resp_later).
  reflexivity.
Defined.

End GroupsFromResponse.

(** ** The directory client *)

Section DirectoryClient.
Import Ldap LDAP.
Variable srv : server.

(** One attempt sends one request and turns [SERVER_DOWN] into
    [CoprHttpException]; other outcomes pass through. *)
Lemma _send_request_outcome (self : t) (ou : option string)
    (attrs : list string) (ffilter : string) (w : world) :
  let rq := Request (url self) ou SCOPE_ONELEVEL ffilter attrs in
  _send_request srv self ou attrs ffilter w
  = Some (match srv (length (sent w)) rq with
          | Entries l => Ok l
          | Down desc => Raise (CoprHttpException desc)
          | Failed desc => Raise (LDAPError desc)
          end,
          World (sent w ++ [rq]) (slept_ms w) (printed w)).
Proof.
  intros rq. unfold _send_request, try_except, search_s. fold rq.
  by destruct (srv (length (sent w)) rq).
Qed.

(** No attempt ends in [SERVER_DOWN], so the handler of the loop is never
    entered: with any fuel the loop is its first attempt. *)
Lemma _send_request_repeatedly_once (fuel : nat) (self : t)
    (ou : option string) (attrs : list string) (ffilter : string) (i : nat)
    (w : world) :
  _send_request_repeatedly srv (S fuel) self ou attrs ffilter i w
  = _send_request srv self ou attrs ffilter w.
Proof.
  cbn [_send_request_repeatedly]. unfold try_except at 1.
  rewrite _send_request_outcome. cbv zeta.
  by destruct (srv (length (sent w)) _).
Qed.

Lemma send_request_outcome (fuel : nat) (self : t) (ou : option string)
    (attrs : list string) (ffilter : string) (w : world) :
  let rq := Request (url self) ou SCOPE_ONELEVEL ffilter attrs in
  send_request srv (S fuel) self ou attrs ffilter w
  = Some (match srv (length (sent w)) rq with
          | Entries l => Ok l
          | Down desc => Raise (CoprHttpException desc)
          | Failed desc => Raise (LDAPError desc)
          end,
          World (sent w ++ [rq]) (slept_ms w) (printed w)).
Proof.
  intros rq. unfold send_request.
  rewrite _send_request_repeatedly_once. apply _send_request_outcome.
Qed.

(** With at least one entry found, [query_one] returns the first. *)
Lemma query_one_first (fuel : nat) (self : t) (attrs : list string)
    (filters : option (list (string * string))) (w : world)
    (first : entry) (others : list entry) :
  let rq := Request (url self) (search_string self) SCOPE_ONELEVEL
              (_build_filter filters) attrs in
  srv (length (sent w)) rq = Entries (first :: others) →
  query_one srv (S fuel) self attrs filters w
  = Some (Ok first, World (sent w ++ [rq]) (slept_ms w) (printed w)).
Proof.
  intros rq Hreply. unfold query_one, bind.
  rewrite send_request_outcome. cbv zeta. fold rq. by rewrite Hreply.
Qed.

(** With no entry found, [query_one] indexes the empty list. *)
Lemma query_one_empty (fuel : nat) (self : t) (attrs : list string)
    (filters : option (list (string * string))) (w : world) :
  let rq := Request (url self) (search_string self) SCOPE_ONELEVEL
              (_build_filter filters) attrs in
  srv (length (sent w)) rq = Entries [] →
  query_one srv (S fuel) self attrs filters w
  = Some (Raise IndexError, World (sent w ++ [rq]) (slept_ms w) (printed w)).
Proof.
  intros rq Hreply. unfold query_one, bind.
  rewrite send_request_outcome. cbv zeta. fold rq. by rewrite Hreply.
Qed.

(** [get_user_groups] has no run that returns [None]. *)
Lemma get_user_groups_not_none (fuel : nat) (self : t) (username : string)
    (w w' : world) :
  get_user_groups srv fuel self username w ≠ Some (Ok None, w').
Proof.
  unfold get_user_groups, bind.
  destruct (get_user srv fuel self username w) as [[[user|e] w1]|]; [| done..].
  cbn [truthy_entry negb]. unfold ret, raise.
  by destruct (user.2 !! "memberOf").
Qed.

End DirectoryClient.

Section DirectoryFailures.
Import Ldap LDAP.

(** C2, at a server that is down for the first request and up from the
    second: whatever the fuel, the client sends one request, does not sleep,
    and raises [CoprHttpException] with the server's message; the answer the
    second request would have had is never asked for. *)
Theorem send_request_surfaces_server_down (fuel : nat) :
  send_request Sample.srv_down_once (S fuel) Sample.client
    (search_string Sample.client) ["cn"; "uid"; "memberOf"; "mail"]
    "(&(objectclass=*)(uid=alice))" world0
  = Some (Raise (CoprHttpException "Can't contact LDAP server"),
          World [Sample.alice_request] 0 [])
  ∧ Sample.srv_down_once 1 Sample.alice_request = Entries [Sample.alice_entry].
Proof. split; [by rewrite send_request_outcome | reflexivity]. Qed.

(** C8, at a server that finds no entry: [query_one] raises [IndexError],
    and so does [get_user_groups] instead of returning [None]. *)
Theorem query_one_no_entry (fuel : nat) :
  query_one Sample.srv_no_entry (S fuel) Sample.client
    ["cn"; "uid"; "memberOf"; "mail"]
    (Some [("objectclass", "*"); ("uid", "alice")]) world0
  = Some (Raise IndexError, World [Sample.alice_request] 0 [])
  ∧ get_user_groups Sample.srv_no_entry (S fuel) Sample.client "alice" world0
    = Some (Raise IndexError, World [Sample.alice_request] 0 []).
Proof.
  assert (Hq : query_one Sample.srv_no_entry (S fuel) Sample.client
                 ["cn"; "uid"; "memberOf"; "mail"]
                 (Some [("objectclass", "*"); ("uid", "alice")]) world0
               = Some (Raise IndexError, World [Sample.alice_request] 0 [])).
  { by rewrite query_one_empty. }
  split; [exact Hq |].
  unfold get_user_groups, get_user, bind. by rewrite Hq.
Qed.

(** The directory path end to end: one request, and the [cn] of each
    [memberOf] value. *)
Example group_names_from_directory :
  GroupAuth.group_names Sample.srv_alice 1 Sample.cfg_krb None (Some "alice")
    world0
  = Some (Ok (NamesList ["devs"]), World [Sample.alice_request] 0 []).
Proof. reflexivity. Qed.

(** With federated login on and only a username, the answer is [None] and
    the directory is not asked. *)
Example group_names_fas_username :
  GroupAuth.group_names Sample.srv_alice 1 Sample.cfg_fas None (Some "alice")
    world0
  = Some (Ok NamesNone, world0).
Proof. reflexivity. Qed.

Example query_one_alice :
  query_one Sample.srv_alice 1 Sample.client
    ["cn"; "uid"; "memberOf"; "mail"]
    (Some [("objectclass", "*"); ("uid", "alice")]) world0
  = Some (Ok Sample.alice_entry, World [Sample.alice_request] 0 []).
Proof. by rewrite (query_one_first _ _ _ _ _ _ Sample.alice_entry []). Qed.

End DirectoryFailures.

(** ** LDAPGroups.group_names: the name of a group *)

Section GroupName.
Import Str Shape LDAPGroups.

Lemma plain_without (s : string) :
  plain s = true → without "," s = true ∧ without "=" s = true.
Proof.
  unfold plain, without. induction s as [|c s IH]; [done |].
  cbn [all_chars]. intros [[Hc1 Hc2]%andb_prop Hs]%andb_prop.
  destruct (IH Hs) as [-> ->]. rewrite Hc1, Hc2. done.
Qed.

Lemma without_app (sep : ascii) (s1 s2 : string) :
  without sep (s1 +:+ s2) = without sep s1 && without sep s2.
Proof. apply all_chars_app. Qed.

(** Text without the separator is one piece. *)
Lemma split_without (sep : ascii) (s : string) :
  without sep s = true → split sep s = [s].
Proof.
  unfold without. induction s as [|c s IH]; [done |].
  cbn [all_chars split]. intros [Hc Hs]%andb_prop.
  apply negb_true_iff in Hc. rewrite Hc, (IH Hs). done.
Qed.

(** The first separator ends the first piece. *)
Lemma split_app_sep (sep : ascii) (a b : string) :
  without sep a = true →
  split sep (a +:+ String sep b) = a :: split sep b.
Proof.
  unfold without. induction a as [|c a IH].
  - intros _. rewrite str_app_nil_l. cbn [split]. by rewrite Ascii.eqb_refl.
  - cbn [all_chars]. intros [Hc Ha]%andb_prop. apply negb_true_iff in Hc.
    rewrite str_app_cons. cbn [split]. rewrite Hc, (IH Ha). done.
Qed.

(** Splitting undoes joining when no piece holds the separator. *)
Lemma split_join (sep : ascii) (seg : string) (segs : list string) :
  without sep seg = true →
  Forall (λ s, without sep s = true) segs →
  split sep (join (String sep "") (seg :: segs)) = seg :: segs.
Proof.
  intros Hseg Hsegs. revert seg Hseg.
  induction Hsegs as [|s segs Hs _ IH]; intros seg Hseg.
  - by apply split_without.
  - change (join (String sep "") (seg :: s :: segs))
      with (seg +:+ String sep (join (String sep "") (s :: segs))).
    rewrite (split_app_sep _ _ _ Hseg). by rewrite (IH s Hs).
Qed.

Lemma split_segment (kv : string * string) :
  plain kv.1 = true → plain kv.2 = true →
  split "=" (segment kv) = [kv.1; kv.2] ∧ without "," (segment kv) = true.
Proof.
  intros [Hk1 Hk2]%plain_without [Hv1 Hv2]%plain_without. unfold segment.
  change (kv.1 +:+ "=" +:+ kv.2) with (kv.1 +:+ String "=" kv.2). split.
  - rewrite (split_app_sep _ _ _ Hk2). by rewrite (split_without _ _ Hv2).
  - rewrite without_app, Hk1. unfold without in *. cbn [all_chars].
    by rewrite Hv1.
Qed.

Lemma py_dict_pairs (pairs : list (string * string)) (acc : gmap string string) :
  py_dict (map (λ kv, [kv.1; kv.2]) pairs) acc = Ok (dict_of pairs acc).
Proof.
  revert acc. induction pairs as [|kv pairs IH]; intros acc; [done |].
  cbn [map py_dict]. by rewrite IH.
Qed.

Lemma dict_of_lookup_other (pairs : list (string * string))
    (acc : gmap string string) (k : string) :
  Forall (λ kv, kv.1 ≠ k) pairs → dict_of pairs acc !! k = acc !! k.
Proof.
  intros Hkeys. revert acc.
  induction Hkeys as [|kv pairs Hkv _ IH]; intros acc; [done |].
  cbn [dict_of foldl]. fold (dict_of pairs (<[kv.1 := kv.2]> acc)).
  rewrite IH. by rewrite lookup_insert_ne.
Qed.

(** C7, at a group that lies below a container named by [cn], as the
    groups of a FreeIPA directory do: the name extracted is the value of the
    last [cn], the container, and not the value of the first, the group. *)
Theorem group_cn_last_cn_wins :
  group_cn "cn=devs,ou=groups,cn=accounts" = Ok "accounts"
  ∧ group_cn "cn=devs,ou=groups,cn=accounts" ≠ Ok "devs".
Proof. split; [reflexivity | vm_compute; congruence]. Qed.

(** A value holding [=] breaks the pairing. *)
Example group_cn_value_with_equals :
  group_cn "cn=a=b,ou=groups" = Raise ValueError.
Proof. reflexivity. Qed.

(** For well-formed segments, cutting at [,] and then at [=] gives back
    the keys and the values. *)
Lemma segments_split (pairs : list (string * string)) :
  Forall (λ kv, plain kv.1 = true ∧ plain kv.2 = true) pairs →
  map (split "=") (map segment pairs) = map (λ kv, [kv.1; kv.2]) pairs
  ∧ Forall (λ s, without "," s = true) (map segment pairs).
Proof.
  induction 1 as [|kv pairs [Hk Hv] _ [IHsplit IHcomma]]; [done |].
  destruct (split_segment kv Hk Hv) as [Hsplit Hcomma]. cbn [map]. split.
  - by rewrite Hsplit, IHsplit.
  - by constructor.
Qed.

(** Where the parse does give the group: for [cn=X,k1=v1,...,kn=vn] whose
    keys and values hold neither [,] nor [=] and whose later keys differ
    from [cn], the name extracted is [X], however many segments follow. *)
Lemma group_cn_first_segment (X : string) (rest : list (string * string)) :
  plain X = true →
  Forall (λ kv, plain kv.1 = true ∧ plain kv.2 = true ∧ kv.1 ≠ "cn") rest →
  group_cn (group_dn X rest) = Ok X.
Proof.
  intros HX Hrest. unfold group_cn, group_dn.
  destruct (segments_split (("cn", X) :: rest)) as [Hsplit Hcomma].
  { constructor; [done |].
    eapply list.Forall_impl; [exact Hrest |]. by intros kv (? & ? & _). }
  cbn [map] in Hcomma. apply list.Forall_cons in Hcomma as [Hcn Hcomma].
  change "," with (String ","%char "") at 1.
  cbn [map]. rewrite (split_join _ _ _ Hcn Hcomma).
  change (segment ("cn", X) :: map segment rest)
    with (map segment (("cn", X) :: rest)).
  rewrite Hsplit, py_dict_pairs. cbn [rbind dict_of foldl fst snd].
  fold (dict_of rest (<["cn" := X]> ∅)).
  rewrite dict_of_lookup_other.
  - by rewrite lookup_insert_eq.
  - eapply list.Forall_impl; [exact Hrest |]. by intros kv (_ & _ & ?).
Qed.

Example group_cn_first_segment_sample :
  group_cn "cn=devs,ou=groups,dc=example,dc=org" = Ok "devs".
Proof.
  apply (group_cn_first_segment "devs"
           [("ou", "groups"); ("dc", "example"); ("dc", "org")]);
    [reflexivity |].
  repeat constructor; discriminate.
Qed.

End GroupName.

(** * Further properties of the code *)

(** ** fed_raw_name: what its results look like *)

Section FedRawNameResults.
Import Str Url Shape Form FedoraAccounts.

Lemma all_chars_replace_from (p : ascii → bool) (old s : string) (skip : nat) :
  all_chars p s = true → all_chars p (replace_from old "" skip s) = true.
Proof.
  revert skip. induction s as [|c s IH]; intros skip; [done |].
  cbn [all_chars]. intros [Hc Hs]%andb_prop. cbn [replace_from].
  destruct skip as [|k]; [| by apply IH].
  destruct (startswith old (String c s)).
  - rewrite str_app_nil_l. by apply IH.
  - cbn [all_chars]. rewrite Hc. by apply IH.
Qed.

Lemma all_chars_drop (p : ascii → bool) (n : nat) (s : string) :
  all_chars p s = true → all_chars p (drop n s) = true.
Proof.
  revert n. induction s as [|c s IH]; intros [|n]; try done.
  cbn [all_chars drop]. intros [_ Hs]%andb_prop. by apply IH.
Qed.

Lemma all_chars_lstrip (p : ascii → bool) (s : string) :
  all_chars p s = true → all_chars p (lstrip_c0_space s) = true.
Proof.
  induction s as [|c s IH]; [done |]. cbn [lstrip_c0_space].
  destruct (code_in 0 32 c); [| done].
  cbn [all_chars]. intros [_ Hs]%andb_prop. by apply IH.
Qed.

Lemma all_chars_remove_unsafe (p : ascii → bool) (s : string) :
  all_chars p s = true → all_chars p (remove_unsafe s) = true.
Proof.
  induction s as [|c s IH]; [done |].
  cbn [all_chars remove_unsafe]. intros [Hc Hs]%andb_prop.
  destruct (_ || _); [by apply IH |]. cbn [all_chars]. rewrite Hc. by apply IH.
Qed.

Lemma all_chars_after_scheme (p : ascii → bool) (s : string) :
  all_chars p s = true → all_chars p (after_scheme s) = true.
Proof.
  intros Hs. unfold after_scheme.
  destruct (find_char ":" s) as [[|i]|]; [done | | done].
  destruct s as [|c0 s]; [done |].
  destruct (_ && _); [| done]. by apply all_chars_drop.
Qed.

Lemma until_delim_free (s : string) : free_of "/?#" (until_delim s) = true.
Proof.
  unfold free_of. induction s as [|c s IH]; [done |]. cbn [until_delim].
  destruct (mem_char c "/?#") eqn:Hc; [done |].
  cbn [all_chars]. by rewrite Hc, IH.
Qed.

(** A network location holds no [/], [?] or [#]. *)
Lemma netloc_free (url : string) : free_of "/?#" (netloc url) = true.
Proof.
  unfold netloc. destruct (startswith "//" _); [apply until_delim_free | done].
Qed.

(** Text without a slash has no network location. *)
Lemma netloc_without_slash (s : string) : without "/" s = true → netloc s = "".
Proof.
  intros Hs. unfold netloc.
  assert (Hclean : without "/" (after_scheme (remove_unsafe (lstrip_c0_space s)))
                   = true).
  { by apply all_chars_after_scheme, all_chars_remove_unsafe, all_chars_lstrip. }
  destruct (after_scheme _) as [|c rest]; [done |].
  unfold without in Hclean. cbn [all_chars] in Hclean.
  apply andb_prop in Hclean as [Hc _]. apply negb_true_iff in Hc.
  cbn [startswith]. rewrite Ascii.eqb_sym, Hc. done.
Qed.

Lemma free_of_without_slash (s : string) :
  free_of "/?#" s = true → without "/" s = true.
Proof.
  apply all_chars_impl. intros c Hc. cbn [mem_char] in Hc.
  destruct (Ascii.eqb c "/"); [done | done].
Qed.

Lemma fed_raw_name_of_netloc (cfg : config) (oidname : string) :
  netloc oidname ≠ "" →
  fed_raw_name cfg oidname
  = replace_from ("." +:+ netloc (OPENID_PROVIDER_URL cfg)) "" 0 (netloc oidname).
Proof.
  intros Hnet. unfold fed_raw_name.
  destruct (netloc oidname) as [|c h]; [done |]. reflexivity.
Qed.

(** The name computed from a network location holds no delimiter. *)
Lemma stripped_netloc_free (old url : string) :
  free_of "/?#" (replace_from old "" 0 (netloc url)) = true.
Proof. apply all_chars_replace_from, netloc_free. Qed.

(** X1: when the identity URL has a network location, the name computed
    from it holds no [/], no [?] and no [#]. *)
Theorem fed_raw_name_free_of_delimiters (cfg : config) (oidname : string) :
  netloc oidname ≠ "" →
  free_of "/?#" (fed_raw_name cfg oidname) = true.
Proof.
  intros Hnet. rewrite (fed_raw_name_of_netloc _ _ Hnet).
  apply stripped_netloc_free.
Qed.

Lemma fed_raw_name_free_of_delimiters_witness :
  free_of "/?#"
    (fed_raw_name Sample.cfg_fas "https://alice.id.example.org/a/b?c#d") = true.
Proof.
  apply (fed_raw_name_free_of_delimiters Sample.cfg_fas
           "https://alice.id.example.org/a/b?c#d").
  vm_compute. discriminate.
Defined.

(** X2: normalising a normalised name changes nothing. *)
Theorem fed_raw_name_idempotent (cfg : config) (oidname : string) :
  fed_raw_name cfg (fed_raw_name cfg oidname) = fed_raw_name cfg oidname.
Proof.
  destruct (decide (netloc oidname = "")) as [Hnone | Hnet].
  - unfold fed_raw_name at 2. rewrite Hnone. cbn [truthy_str negb].
    unfold fed_raw_name. by rewrite Hnone.
  - assert (Hname : netloc (fed_raw_name cfg oidname) = "").
    { apply netloc_without_slash, free_of_without_slash.
      rewrite (fed_raw_name_of_netloc _ _ Hnet). apply stripped_netloc_free. }
    unfold fed_raw_name at 1. by rewrite Hname.
Qed.

End FedRawNameResults.

(** ** krb_straighten_username: what it accepts and what it returns *)

Section StraightenResults.
Import Str Krb Shape Form.
Variable db : Unicode.database.

Lemma principal_char_facts (c : ascii) :
  principal_char c = true →
  Ascii.eqb c "@" = false
  ∧ name_char (if Ascii.eqb c "/" then "_"%char else c) = true.
Proof. destruct c as [[] [] [] [] [] [] [] []]; vm_compute; intuition congruence. Qed.

Lemma name_char_not_line_feed (c : ascii) :
  name_char c = true → Ascii.eqb c LF = false.
Proof. destruct c as [[] [] [] [] [] [] [] []]; vm_compute; congruence. Qed.

(** The scan copies the user part up to the first [@]. *)
Lemma sub_realm_user (u tail : string) :
  all_chars principal_char u = true →
  sub_realm false (u +:+ tail) = u +:+ sub_realm false tail.
Proof.
  induction u as [|c u IH]; [done |].
  cbn [all_chars]. intros [Hc Hu]%andb_prop. rewrite !str_app_cons.
  destruct (principal_char_facts c Hc) as [Hat _].
  cbn [sub_realm]. by rewrite Hat, (IH Hu).
Qed.

(** A realm on one line is dropped whole. *)
Lemma sub_realm_realm (r : string) :
  without LF r = true → sub_realm true r = "".
Proof.
  unfold without. induction r as [|c r IH]; [done |].
  cbn [all_chars]. intros [Hc Hr]%andb_prop. apply negb_true_iff in Hc.
  cbn [sub_realm]. by rewrite Hc, (IH Hr).
Qed.

Lemma sub_slash_names (u : string) :
  all_chars principal_char u = true → all_chars name_char (sub_slash u) = true.
Proof.
  induction u as [|c u IH]; [done |].
  cbn [all_chars sub_slash]. intros [Hc Hu]%andb_prop.
  destruct (principal_char_facts c Hc) as [_ ->]. by apply IH.
Qed.

(** X3: a principal [user@REALM], with a non-empty user part of ASCII name
    characters and slashes and a realm on one line, is straightened to the
    user part with every slash turned into an underscore. *)
Theorem krb_straighten_username_strips_realm (user realm : string) :
  user ≠ "" →
  all_chars principal_char user = true →
  without LF realm = true →
  krb_straighten_username db (user +:+ "@" +:+ realm) = Some (sub_slash user).
Proof.
  intros Hne Huser Hrealm.
  assert (Hclean : sub_slash (sub_realm false (user +:+ "@" +:+ realm))
                   = sub_slash user).
  { rewrite (sub_realm_user _ _ Huser).
    change (sub_realm false ("@" +:+ realm)) with (sub_realm true realm).
    by rewrite (sub_realm_realm _ Hrealm), str_app_nil_r. }
  rewrite <- Hclean. apply krb_straighten_username_accepts; rewrite Hclean.
  - by destruct user.
  - by apply sub_slash_names.
Qed.

(** A byte of a name is neither of the two characters that the clean-up
    removes or replaces. *)
Lemma name_byte_kept (c : ascii) :
  name_byte c = true → Ascii.eqb c "@" = false ∧ Ascii.eqb c "/" = false.
Proof. destruct c as [[] [] [] [] [] [] [] []]; vm_compute; intuition congruence. Qed.

Lemma name_then_line_feed_clean (w : string) (sep : ascii) :
  Ascii.eqb LF sep = false →
  (∀ c, name_byte c = true → Ascii.eqb c sep = false) →
  all_chars name_byte w = true →
  without sep w = true ∧ without sep (w +:+ String LF "") = true.
Proof.
  intros Hlf Hsep Hw.
  assert (Hclean : without sep w = true).
  { revert Hw. apply all_chars_impl. intros c Hc. by rewrite (Hsep c Hc). }
  split; [done |]. rewrite without_app, Hclean.
  unfold without. cbn [all_chars]. by rewrite Hlf.
Qed.

(** A name that is returned holds neither [@] nor [/], whatever characters
    past ASCII it holds. *)
Lemma straightened_clean (raw name : string) :
  krb_straighten_username db raw = Some name →
  without "@" name = true ∧ without "/" name = true.
Proof.
  intros (w & _ & Hw & Hname)%krb_straighten_username_shape.
  destruct (name_then_line_feed_clean w "@") as [Hat Hat']; [done | | done |].
  { intros c Hc. by destruct (name_byte_kept c Hc). }
  destruct (name_then_line_feed_clean w "/") as [Hsl Hsl']; [done | | done |].
  { intros c Hc. by destruct (name_byte_kept c Hc). }
  by destruct Hname as [-> | ->].
Qed.

(** Text without [@] and [/] passes the clean-up unchanged. *)
Lemma cleaning_identity (s : string) :
  without "@" s = true → without "/" s = true →
  sub_slash (sub_realm false s) = s.
Proof.
  unfold without. induction s as [|c s IH]; [done |].
  cbn [all_chars]. intros [Hat Hs1]%andb_prop [Hsl Hs2]%andb_prop.
  apply negb_true_iff in Hat, Hsl.
  cbn [sub_realm]. rewrite Hat. cbn [sub_slash]. rewrite Hsl.
  by rewrite (IH Hs1 Hs2).
Qed.

(** X4: a name that is returned holds neither [@] nor [/]; this holds for
    every principal and every Unicode database. *)
Theorem krb_straighten_username_no_realm_no_slash (raw name : string) :
  krb_straighten_username db raw = Some name →
  without "@" name = true ∧ without "/" name = true.
Proof. apply straightened_clean. Qed.

(** X5: straightening a name that was returned gives the same name; this
    holds for every principal and every Unicode database. *)
Theorem krb_straighten_username_fixpoint (raw name : string) :
  krb_straighten_username db raw = Some name →
  krb_straighten_username db name = Some name.
Proof.
  intros Hrun.
  destruct (straightened_clean _ _ Hrun) as [Hat Hslash].
  destruct (krb_straighten_username_Some _ _ _ Hrun) as [_ Hmatch].
  unfold krb_straighten_username.
  by rewrite (cleaning_identity _ Hat Hslash), Hmatch.
Qed.

(** Inside a realm the scan gives nothing, or text that starts at a line
    feed. *)
Lemma sub_realm_inside (r : string) :
  sub_realm true r = "" ∨ ∃ t, sub_realm true r = String LF t.
Proof.
  induction r as [|c r IH]; [by left |]. cbn [sub_realm].
  destruct (Ascii.eqb c LF) eqn:Hc; [| done].
  apply Ascii.eqb_eq in Hc as ->. right. eauto.
Qed.

(** X6: a principal whose user part is empty is rejected, whatever follows
    the [@]; so is the empty principal. *)
Theorem krb_straighten_username_empty_user (rest : string) :
  krb_straighten_username db ("@" +:+ rest) = None
  ∧ krb_straighten_username db "" = None.
Proof.
  split; [| done]. unfold krb_straighten_username.
  change (sub_realm false ("@" +:+ rest)) with (sub_realm true rest).
  by destruct (sub_realm_inside rest) as [-> | [t ->]].
Qed.

End StraightenResults.

(** With a database that knows the letters of Latin-1, a principal with
    such a letter is straightened like any other, and the line feed at its
    end is kept as well. *)
Example straighten_latin1 :
  Krb.krb_straighten_username Sample.latin1 "josé@EXAMPLE.COM" = Some "josé"
  ∧ Krb.krb_straighten_username Sample.latin1 ("josé" +:+ String Str.LF "")
    = Some ("josé" +:+ String Str.LF "")
  ∧ Krb.krb_straighten_username Sample.latin1 "3×4@EXAMPLE.COM" = None.
Proof. repeat split. Qed.

Lemma krb_straighten_username_strips_realm_witness :
  Krb.krb_straighten_username Sample.latin1 "host/build.example.org@EXAMPLE.COM"
  = Some "host_build.example.org".
Proof.
  apply (krb_straighten_username_strips_realm Sample.latin1
           "host/build.example.org" "EXAMPLE.COM");
    [discriminate | reflexivity | reflexivity].
Defined.

Lemma krb_straighten_username_no_realm_no_slash_witness :
  Shape.without "@" "josé_admin" = true ∧ Shape.without "/" "josé_admin" = true.
Proof.
  apply (krb_straighten_username_no_realm_no_slash Sample.latin1
           "josé/admin@EXAMPLE.COM").
  reflexivity.
Defined.

Lemma krb_straighten_username_fixpoint_witness :
  Krb.krb_straighten_username Sample.latin1 "josé_admin" = Some "josé_admin".
Proof.
  apply (krb_straighten_username_fixpoint Sample.latin1
           "josé/admin@EXAMPLE.COM").
  reflexivity.
Defined.

(** ** The directory client: one search per lookup *)

Section DirectoryLookups.
Import Ldap LDAP Form.
Variable srv : server.

Lemma _build_filter_uid (username : string) :
  _build_filter (Some [("objectclass", "*"); ("uid", username)])
  = "(&(objectclass=*)(uid=" +:+ username +:+ "))".
Proof.
  unfold _build_filter. cbn [map Str.join fst snd].
  rewrite !str_app_assoc. reflexivity.
Qed.

Lemma get_user_outcome (fuel : nat) (self : t) (username : string) (w : world) :
  let rq := user_request (url self) (search_string self) username in
  get_user srv (S fuel) self username w
  = Some (match srv (length (sent w)) rq with
          | Entries (first :: _) => Ok first
          | Entries [] => Raise IndexError
          | Down desc => Raise (CoprHttpException desc)
          | Failed desc => Raise (LDAPError desc)
          end,
          World (sent w ++ [rq]) (slept_ms w) (printed w)).
Proof.
  intros rq. unfold get_user, query_one, bind.
  rewrite send_request_outcome. cbv zeta. rewrite _build_filter_uid.
  fold (user_request (url self) (search_string self) username). fold rq.
  by destruct (srv (length (sent w)) rq) as [[|first others]| |].
Qed.

(** X7: with any fuel, [get_user] ends after exactly one search, whose
    filter is the conjunction of [objectclass=*] and [uid=<username>] with
    the username put in as it is; it neither sleeps nor prints.  It returns the first entry found,
    raises [IndexError] when none is found, turns [SERVER_DOWN] into
    [CoprHttpException] with the server's text and lets any other directory
    error through. *)
Theorem get_user_single_search (fuel : nat) (self : t) (username : string)
    (w : world) :
  let rq := user_request (url self) (search_string self) username in
  get_user srv (S fuel) self username w
  = Some (match srv (length (sent w)) rq with
          | Entries (first :: _) => Ok first
          | Entries [] => Raise IndexError
          | Down desc => Raise (CoprHttpException desc)
          | Failed desc => Raise (LDAPError desc)
          end,
          World (sent w ++ [rq]) (slept_ms w) (printed w)).
Proof. apply get_user_outcome. Qed.

Lemma get_user_groups_found (fuel : nat) (self : t) (username : string)
    (w : world) (user : entry) (others : list entry) :
  let rq := user_request (url self) (search_string self) username in
  srv (length (sent w)) rq = Entries (user :: others) →
  get_user_groups srv (S fuel) self username w
  = Some (match user.2 !! "memberOf" with
          | Some groups => Ok (Some groups)
          | None => Raise (KeyError "memberOf")
          end,
          World (sent w ++ [rq]) (slept_ms w) (printed w)).
Proof.
  intros rq Hreply. unfold get_user_groups, bind.
  rewrite get_user_outcome. cbv zeta. fold rq. rewrite Hreply.
  cbn [truthy_entry negb]. by destruct (user.2 !! "memberOf").
Qed.

(** X8: when the search finds entries, [get_user_groups] reads the first
    one only: it returns its [memberOf] values, and raises
    [KeyError("memberOf")] when that entry has no such attribute. *)
Theorem get_user_groups_first_entry (fuel : nat) (self : t)
    (username : string) (w : world) (user : entry) (others : list entry) :
  let rq := user_request (url self) (search_string self) username in
  srv (length (sent w)) rq = Entries (user :: others) →
  get_user_groups srv (S fuel) self username w
  = Some (match user.2 !! "memberOf" with
          | Some groups => Ok (Some groups)
          | None => Raise (KeyError "memberOf")
          end,
          World (sent w ++ [rq]) (slept_ms w) (printed w)).
Proof. apply get_user_groups_found. Qed.

End DirectoryLookups.

Lemma get_user_groups_first_entry_witness :
  LDAP.get_user_groups (λ _ _, Ldap.Entries [("uid=carol", ∅); Sample.alice_entry])
    1 Sample.client "carol" Ldap.world0
  = Some (Raise (KeyError "memberOf"),
          Ldap.World [Form.user_request (LDAP.url Sample.client)
                        (LDAP.search_string Sample.client) "carol"] 0 []).
Proof.
  rewrite (get_user_groups_first_entry
             (λ _ _, Ldap.Entries [("uid=carol", ∅); Sample.alice_entry])
             0 Sample.client "carol" Ldap.world0 ("uid=carol", ∅)
             [Sample.alice_entry]) by reflexivity.
  reflexivity.
Defined.

(** ** LDAPGroups: reading the names of the groups *)

Section GroupNames.
Import Str Shape Form Ldap LDAPGroups.






(** A group made of well-formed segments is read through the dictionary of
    its pairs. *)
Lemma group_cn_of_pairs (pairs : list (string * string)) :
  pairs ≠ [] →
  Forall (λ kv, plain kv.1 = true ∧ plain kv.2 = true) pairs →
  group_cn (join "," (map segment pairs))
  = match dict_of pairs ∅ !! "cn" with
    | Some cn => Ok cn
    | None => Raise (KeyError "cn")
    end.
Proof.
  intros Hne Hplain. destruct (segments_split pairs Hplain) as [Hsplit Hcomma].
  destruct pairs as [|kv pairs]; [done |]. cbn [map] in Hcomma.
  apply list.Forall_cons in Hcomma as [Hfirst Hcomma].
  unfold group_cn. change "," with (String ","%char "") at 1.
  cbn [map]. rewrite (split_join _ _ _ Hfirst Hcomma).
  change (segment kv :: map segment pairs) with (map segment (kv :: pairs)).
  by rewrite Hsplit, py_dict_pairs.
Qed.

Lemma dict_of_app (before after : list (string * string))
    (acc : gmap string string) :
  dict_of (before ++ after) acc = dict_of after (dict_of before acc).
Proof. apply foldl_app. Qed.

(** X10: in a group of well-formed segments the [cn] that counts is the
    last one: whatever segments come before it, when no segment after it is
    keyed [cn], its value is the name. *)
Theorem group_cn_last_cn (X : string) (before after : list (string * string)) :
  plain X = true →
  Forall (λ kv, plain kv.1 = true ∧ plain kv.2 = true) before →
  Forall (λ kv, plain kv.1 = true ∧ plain kv.2 = true ∧ kv.1 ≠ "cn") after →
  group_cn (join "," (map segment (before ++ ("cn", X) :: after))) = Ok X.
Proof.
  intros HX Hbefore Hafter. rewrite group_cn_of_pairs.
  - rewrite dict_of_app. cbn [dict_of foldl fst snd].
    fold (dict_of after (<["cn" := X]> (dict_of before ∅))).
    rewrite dict_of_lookup_other.
    + by rewrite lookup_insert_eq.
    + eapply list.Forall_impl; [exact Hafter |]. by intros kv (_ & _ & ?).
  - by destruct before.
  - apply Forall_app. split; [done |]. constructor; [done |].
    eapply list.Forall_impl; [exact Hafter |]. by intros kv (? & ? & _).
Qed.

Lemma group_cn_last_cn_witness :
  group_cn "uid=x,cn=ipausers,cn=groups,cn=accounts,dc=example,dc=org"
  = Ok "accounts".
Proof.
  apply (group_cn_last_cn "accounts"
           [("uid", "x"); ("cn", "ipausers"); ("cn", "groups")]
           [("dc", "example"); ("dc", "org")]); [reflexivity | |].
  - repeat constructor.
  - repeat constructor; discriminate.
Defined.

(** X11: a group of well-formed segments none of which is keyed [cn]
    raises [KeyError("cn")]. *)
Theorem group_cn_without_cn (pairs : list (string * string)) :
  pairs ≠ [] →
  Forall (λ kv, plain kv.1 = true ∧ plain kv.2 = true ∧ kv.1 ≠ "cn") pairs →
  group_cn (join "," (map segment pairs)) = Raise (KeyError "cn").
Proof.
  intros Hne Hpairs. rewrite group_cn_of_pairs.
  - rewrite dict_of_lookup_other; [by rewrite lookup_empty |].
    eapply list.Forall_impl; [exact Hpairs |]. by intros kv (_ & _ & ?).
  - done.
  - eapply list.Forall_impl; [exact Hpairs |]. by intros kv (? & ? & _).
Qed.

Lemma group_cn_without_cn_witness :
  group_cn "ou=groups,dc=example,dc=org" = Raise (KeyError "cn").
Proof.
  apply (group_cn_without_cn
           [("ou", "groups"); ("dc", "example"); ("dc", "org")]);
    [discriminate |].
  repeat constructor; discriminate.
Defined.

(** The loop over the values: it collects the names in order, and stops at
    the first value that cannot be read. *)
Lemma each_group_collects (raw names acc : list string) :
  Forall2 (λ r n, parse_group r = Ok n) raw names →
  each_group raw acc = Ok (acc ++ names).
Proof.
  intros Hall. revert acc.
  induction Hall as [|r n raw names Hr _ IH]; intros acc.
  - by rewrite app_nil_r.
  - cbn [each_group]. unfold parse_group in Hr.
    destruct (decode_utf8 r) as [g|e]; [| done]. cbn [rbind] in *.
    rewrite Hr. cbn [rbind]. rewrite IH. by rewrite <- app_assoc.
Qed.

Lemma each_group_stops (good names rest acc : list string) (bad : string)
    (e : exn) :
  Forall2 (λ r n, parse_group r = Ok n) good names →
  parse_group bad = Raise e →
  each_group (good ++ bad :: rest) acc = Raise e.
Proof.
  intros Hgood Hbad. revert acc.
  induction Hgood as [|r n good names Hr _ IH]; intros acc.
  - cbn [app each_group]. unfold parse_group in Hbad.
    destruct (decode_utf8 bad) as [g|e']; cbn [rbind] in *;
      [| by injection Hbad as ->].
    by rewrite Hbad.
  - cbn [app each_group]. unfold parse_group in Hr.
    destruct (decode_utf8 r) as [g|e']; [| done]. cbn [rbind] in *.
    rewrite Hr. cbn [rbind]. apply IH.
Qed.

Lemma group_names_of_values (srv : server) (fuel : nat) (cfg : config)
    (username : string) (w : world) (user : entry) (others : list entry)
    (raw : list string) :
  let rq := user_request (LDAP_URL cfg) (LDAP_SEARCH_STRING cfg) username in
  srv (length (sent w)) rq = Entries (user :: others) →
  user.2 !! "memberOf" = Some raw →
  LDAPGroups.group_names srv (S fuel) cfg username w
  = Some (each_group raw [], World (sent w ++ [rq]) (slept_ms w) (printed w)).
Proof.
  intros rq Hreply Hmember. unfold LDAPGroups.group_names, bind.
  rewrite (get_user_groups_found srv fuel
             (LDAP.mk (LDAP_URL cfg) (LDAP_SEARCH_STRING cfg))
             username w user others Hreply).
  by rewrite Hmember.
Qed.

(** X12: when every [memberOf] value of the user's entry can be read, the
    lookup returns the [cn] of each value, one name per value and in the
    order of the values. *)
Theorem group_names_in_order (srv : server) (fuel : nat) (cfg : config)
    (username : string) (w : world) (user : entry) (others : list entry)
    (raw names : list string) :
  let rq := user_request (LDAP_URL cfg) (LDAP_SEARCH_STRING cfg) username in
  srv (length (sent w)) rq = Entries (user :: others) →
  user.2 !! "memberOf" = Some raw →
  Forall2 (λ r n, parse_group r = Ok n) raw names →
  LDAPGroups.group_names srv (S fuel) cfg username w
  = Some (Ok names, World (sent w ++ [rq]) (slept_ms w) (printed w)).
Proof.
  intros rq Hreply Hmember Hall.
  rewrite (group_names_of_values _ _ _ _ _ _ _ _ Hreply Hmember).
  by rewrite (each_group_collects _ _ _ Hall).
Qed.

(** X13: one value that cannot be read fails the whole lookup: the
    exception of the first such value is raised and no name is returned. *)
Theorem group_names_first_failure (srv : server) (fuel : nat) (cfg : config)
    (username : string) (w : world) (user : entry) (others : list entry)
    (good names rest : list string) (bad : string) (e : exn) :
  let rq := user_request (LDAP_URL cfg) (LDAP_SEARCH_STRING cfg) username in
  srv (length (sent w)) rq = Entries (user :: others) →
  user.2 !! "memberOf" = Some (good ++ bad :: rest) →
  Forall2 (λ r n, parse_group r = Ok n) good names →
  parse_group bad = Raise e →
  LDAPGroups.group_names srv (S fuel) cfg username w
  = Some (Raise e, World (sent w ++ [rq]) (slept_ms w) (printed w)).
Proof.
  intros rq Hreply Hmember Hgood Hbad.
  rewrite (group_names_of_values _ _ _ _ _ _ _ _ Hreply Hmember).
  by rewrite (each_group_stops _ _ _ _ _ _ Hgood Hbad).
Qed.

End GroupNames.

Lemma group_names_in_order_witness :
  LDAPGroups.group_names Sample.srv_alice 1 Sample.cfg_krb "alice" Ldap.world0
  = Some (Ok ["devs"], Ldap.World [Sample.alice_request] 0 []).
Proof.
  refine (group_names_in_order Sample.srv_alice 0 Sample.cfg_krb "alice"
            Ldap.world0 Sample.alice_entry []
            ["cn=devs,ou=groups,dc=example,dc=org"] ["devs"] _ _ _);
    [reflexivity | reflexivity | repeat constructor].
Defined.

Lemma group_names_first_failure_witness :
  LDAPGroups.group_names
    (λ _ _, Ldap.Entries
              [("uid=bob", {[ "memberOf" := ["cn=devs,ou=groups"; "groups"; "cn=ops"] ]})])
    1 Sample.cfg_krb "bob" Ldap.world0
  = Some (Raise ValueError,
          Ldap.World [Form.user_request (LDAP_URL Sample.cfg_krb)
                        (LDAP_SEARCH_STRING Sample.cfg_krb) "bob"] 0 []).
Proof.
  refine (group_names_first_failure _ 0 Sample.cfg_krb "bob" Ldap.world0
            ("uid=bob", {[ "memberOf" := ["cn=devs,ou=groups"; "groups"; "cn=ops"] ]})
            [] ["cn=devs,ou=groups"] ["devs"] ["cn=ops"] "groups" ValueError
            _ _ _ _);
    [reflexivity | reflexivity | repeat constructor | reflexivity].
Defined.

(** ** GroupAuth.group_names: when the directory is asked *)

Section GroupSources.
Import Ldap Form.

Lemma group_names_world
    (srv : server) (fuel : nat) (cfg : config)
    (resp : option AuthResponse.t) (username : option string)
    (w w' : world) (r : result names_value) :
  GroupAuth.group_names srv fuel cfg resp username w = Some (r, w') →
  w' = w
  ∨ (resp = None
     ∧ FAS_LOGIN cfg = false
     ∧ truthy_opt_str (LDAP_URL cfg) = true
     ∧ truthy_opt_str (LDAP_SEARCH_STRING cfg) = true
     ∧ ∃ name, username = Some name ∧ name ≠ ""
         ∧ w' = World (sent w ++ [user_request (LDAP_URL cfg)
                                    (LDAP_SEARCH_STRING cfg) name])
                  (slept_ms w) (printed w)).
Proof.
  unfold GroupAuth.group_names.
  destruct resp as [resp|]; [intros [= _ <-]; by left |].
  destruct (FAS_LOGIN cfg) eqn:Hfas; cbn [andb].
  { destruct username as [name|]; [| intros [= _ <-]; by left].
    cbn [truthy_opt_str]. destruct (truthy_str name); cbn [andb];
      intros [= _ <-]; by left. }
  destruct username as [name|]; [| intros [= _ <-]; by left].
  destruct (truthy_str name) eqn:Hname; cbn [andb];
    [| intros [= _ <-]; by left].
  cbn [forallb].
  destruct (truthy_opt_str (LDAP_URL cfg)) eqn:Hurl; cbn [andb];
    [| intros [= _ <-]; by left].
  destruct (truthy_opt_str (LDAP_SEARCH_STRING cfg)) eqn:Hbase; cbn [andb];
    [| intros [= _ <-]; by left].
  intros Hrun. right. repeat split; try done.
  exists name. split; [done |]. split; [by destruct name |].
  destruct fuel as [|fuel]; [done |].
  unfold bind, LDAPGroups.group_names, bind, LDAP.get_user_groups, bind in Hrun.
  rewrite get_user_outcome in Hrun. cbv zeta in Hrun. cbn [LDAP.url LDAP.search_string] in Hrun.
  destruct (srv _ _) as [[|user others]|desc|desc] in Hrun;
    try (by injection Hrun as _ <-).
  cbn [LDAP.truthy_entry negb] in Hrun.
  destruct (user.2 !! "memberOf") as [raw|];
    [| by injection Hrun as _ <-].
  unfold ret, lift in Hrun.
  destruct (LDAPGroups.each_group raw []); by injection Hrun as _ <-.
Qed.

(** X14: a call of [group_names] that returns or raises either leaves the
    world as it was, or has sent exactly one search, the one for the
    username; the latter happens only without a response, with federated
    login off, a non-empty username and both directory options set. *)
Theorem group_names_asks_directory_only_if
    (srv : server) (fuel : nat) (cfg : config)
    (resp : option AuthResponse.t) (username : option string)
    (w w' : world) (r : result names_value) :
  GroupAuth.group_names srv fuel cfg resp username w = Some (r, w') →
  w' = w
  ∨ (resp = None
     ∧ FAS_LOGIN cfg = false
     ∧ truthy_opt_str (LDAP_URL cfg) = true
     ∧ truthy_opt_str (LDAP_SEARCH_STRING cfg) = true
     ∧ ∃ name, username = Some name ∧ name ≠ ""
         ∧ w' = World (sent w ++ [user_request (LDAP_URL cfg)
                                    (LDAP_SEARCH_STRING cfg) name])
                  (slept_ms w) (printed w)).
Proof. apply group_names_world. Qed.

(** Without a response and without a username ([None] or the empty
    string) [group_names] raises its no-source error, whatever is
    configured, and sends nothing to the directory. *)
Lemma group_names_without_username
    (srv : server) (fuel : nat) (cfg : config) (username : option string)
    (w : world) :
  truthy_opt_str username = false →
  GroupAuth.group_names srv fuel cfg None username w
  = Some (Raise GroupAuth.no_group_source, w).
Proof.
  intros Hname. unfold GroupAuth.group_names. rewrite Hname, andb_false_r.
  destruct username as [name|]; [| done].
  cbn [truthy_opt_str] in Hname. by rewrite Hname.
Qed.

End GroupSources.

Lemma group_names_asks_directory_only_if_witness :
  Ldap.World [Sample.alice_request] 0 [] = Ldap.world0
  ∨ (@None AuthResponse.t = None
     ∧ FAS_LOGIN Sample.cfg_krb = false
     ∧ truthy_opt_str (LDAP_URL Sample.cfg_krb) = true
     ∧ truthy_opt_str (LDAP_SEARCH_STRING Sample.cfg_krb) = true
     ∧ ∃ name, Some "alice" = Some name ∧ name ≠ ""
         ∧ Ldap.World [Sample.alice_request] 0 []
           = Ldap.World (Ldap.sent Ldap.world0
                           ++ [Form.user_request (LDAP_URL Sample.cfg_krb)
                                 (LDAP_SEARCH_STRING Sample.cfg_krb) name])
               (Ldap.slept_ms Ldap.world0) (Ldap.printed Ldap.world0)).
Proof.
  exact (group_names_asks_directory_only_if Sample.srv_alice 1 Sample.cfg_krb
           None (Some "alice") Ldap.world0 (Ldap.World [Sample.alice_request] 0 [])
           (Ok (NamesList ["devs"])) eq_refl).
Defined.

(** ** Provisioning: what happens to the user table *)

Section TableEffects.
Import UsersLogic FedoraAccounts AfterLogin Shape.

Lemma fmap_alter_same {B : Type} (g : User.t → B) (f : User.t → User.t)
    (i : nat) (tbl : table) :
  (∀ u, g (f u) = g u) → g <$> alter f i tbl = g <$> tbl.
Proof.
  intros Hf. revert i. induction tbl as [|x tbl IH]; intros [|i]; simpl; try done.
  - by rewrite Hf.
  - f_equal. apply IH.
Qed.

(** The table that [user_from_response] leaves: the row of the name
    refreshed, or the table as it was. *)
Lemma user_from_response_table (cfg : config) (resp : AuthResponse.t)
    (tbl : table) :
  (user_from_response cfg resp tbl).2
  = match get_first (fed_raw_name cfg (AuthResponse.identity_url resp)) tbl with
    | Some i => alter (User.set_timezone (AuthResponse.timezone resp)) i
                  (alter (User.set_mail (AuthResponse.email resp)) i tbl)
    | None => tbl
    end.
Proof. unfold user_from_response. by destruct (get_first _ tbl). Qed.

Lemma user_from_username_table (cfg : config) (username : string) (tbl : table) :
  (Kerberos.user_from_username cfg username tbl).2 = tbl.
Proof.
  unfold Kerberos.user_from_username.
  destruct (get_first username tbl); [done |].
  destruct (FAS_LOGIN cfg); [done |]. by destruct (krb5_getitem _ _).
Qed.

Lemma user_from_response_keeps (cfg : config) (resp : AuthResponse.t)
    (tbl : table) :
  User.username <$> (user_from_response cfg resp tbl).2 = User.username <$> tbl
  ∧ User.admin <$> (user_from_response cfg resp tbl).2 = User.admin <$> tbl.
Proof.
  rewrite user_from_response_table. destruct (get_first _ tbl); [| done].
  by rewrite !fmap_alter_same.
Qed.

(** X15: [user_object] adds no row, removes none, and changes neither the
    username nor the admin flag of any row, whichever mechanism it picks
    and whether it returns or raises. *)
Theorem user_object_keeps_rows (cfg : config) (resp : option AuthResponse.t)
    (username : option string) (tbl : table) :
  User.username <$> (UserAuth.user_object cfg resp username tbl).2
    = User.username <$> tbl
  ∧ User.admin <$> (UserAuth.user_object cfg resp username tbl).2
    = User.admin <$> tbl.
Proof.
  unfold UserAuth.user_object.
  assert (Hkrb : ∀ r : result user_obj * table,
            r.2 = tbl →
            User.username <$> r.2 = User.username <$> tbl
            ∧ User.admin <$> r.2 = User.admin <$> tbl).
  { by intros r ->. }
  assert (Hvia : ∀ name,
            (if truthy_str name && truthy_krb5 (KRB5_LOGIN cfg)
             then Kerberos.user_from_username cfg name tbl
             else (Raise UserAuth.no_auth_method, tbl)).2 = tbl).
  { intros name. destruct (_ && _); [apply user_from_username_table | done]. }
  destruct resp as [r|].
  - destruct (FAS_LOGIN cfg).
    + pose proof (user_from_response_keeps cfg r tbl) as Hkeep.
      by destruct (user_from_response cfg r tbl).
    + destruct username as [name|]; [by apply Hkrb | done].
  - destruct username as [name|]; [by apply Hkrb | done].
Qed.

Lemma user_object_error_table (cfg : config)
    (resp : option AuthResponse.t) (username : option string)
    (tbl tbl' : table) (e : exn) :
  UserAuth.user_object cfg resp username tbl = (Raise e, tbl') → tbl' = tbl.
Proof.
  unfold UserAuth.user_object.
  assert (Hvia : ∀ name,
            (if truthy_str name && truthy_krb5 (KRB5_LOGIN cfg)
             then Kerberos.user_from_username cfg name tbl
             else (Raise UserAuth.no_auth_method, tbl)) = (Raise e, tbl') →
            tbl' = tbl).
  { intros name Hrun. apply (f_equal snd) in Hrun. cbn [snd] in Hrun.
    rewrite <- Hrun.
    destruct (_ && _); [apply user_from_username_table | done]. }
  destruct resp as [r|].
  - destruct (FAS_LOGIN cfg).
    + by destruct (user_from_response cfg r tbl).
    + destruct username as [name|]; [apply Hvia | by intros [= _ <-]].
  - destruct username as [name|]; [apply Hvia | by intros [= _ <-]].
Qed.

(** X16: when [user_object] raises, the table is exactly as it was. *)
Theorem user_object_error_keeps_table (cfg : config)
    (resp : option AuthResponse.t) (username : option string)
    (tbl tbl' : table) (e : exn) :
  UserAuth.user_object cfg resp username tbl = (Raise e, tbl') → tbl' = tbl.
Proof. apply user_object_error_table. Qed.

Lemma user_object_error_keeps_table_witness :
  [Sample.alice_row] = [Sample.alice_row].
Proof.
  exact (user_object_error_keeps_table Sample.cfg_fas None (Some "bob")
           [Sample.alice_row] [Sample.alice_row]
           (AccessRestricted (Kerberos.restricted_message "bob")) eq_refl).
Defined.

Lemma user_from_username_not_http (cfg : config) (username : string)
    (tbl : table) (msg : string) :
  (Kerberos.user_from_username cfg username tbl).1 ≠ Raise (CoprHttpException msg).
Proof.
  unfold Kerberos.user_from_username.
  destruct (get_first username tbl); [done |].
  destruct (FAS_LOGIN cfg); [done |].
  destruct (KRB5_LOGIN cfg) as [b|d]; cbn [krb5_getitem]; [done |].
  by destruct (d !! "email_domain").
Qed.

(** X17: [user_object] raises its no-method error exactly when neither
    mechanism applies: federated login is off or no response is given, and
    the username is missing or empty or Kerberos login is off. *)
Theorem user_object_no_method_iff (cfg : config)
    (resp : option AuthResponse.t) (username : option string) (tbl : table) :
  (UserAuth.user_object cfg resp username tbl).1 = Raise UserAuth.no_auth_method
  ↔ (FAS_LOGIN cfg = false ∨ resp = None)
    ∧ (truthy_opt_str username = false ∨ truthy_krb5 (KRB5_LOGIN cfg) = false).
Proof.
  unfold UserAuth.user_object.
  assert (Hvia : ∀ name,
            (if truthy_str name && truthy_krb5 (KRB5_LOGIN cfg)
             then Kerberos.user_from_username cfg name tbl
             else (Raise UserAuth.no_auth_method, tbl)).1
            = Raise UserAuth.no_auth_method
            ↔ truthy_str name = false ∨ truthy_krb5 (KRB5_LOGIN cfg) = false).
  { intros name. destruct (truthy_str name), (truthy_krb5 (KRB5_LOGIN cfg));
      cbn [andb]; try (split; [intros _ | done]; auto).
    split; [| intros [|]; done].
    intros Hraise. by apply user_from_username_not_http in Hraise. }
  destruct resp as [r|].
  - destruct (FAS_LOGIN cfg).
    + destruct (user_from_response cfg r tbl). split; [done |].
      by intros [[|] _].
    + destruct username as [name|]; cbn [truthy_opt_str].
      * rewrite Hvia. split; [auto | by intros [_ ?]].
      * split; auto.
  - destruct username as [name|]; cbn [truthy_opt_str].
    + rewrite Hvia. split; [auto | by intros [_ ?]].
    + split; auto.
Qed.

(** X18: the object that [user_from_response] returns, read in the table
    it leaves, bears the normalised username and the mail and timezone of
    the response, whether it was found or created. *)
Theorem user_from_response_bears_claims (cfg : config)
    (resp : AuthResponse.t) (tbl : table) :
  ∃ u,
    deref (user_from_response cfg resp tbl).2 (user_from_response cfg resp tbl).1
      = Some u
    ∧ User.username u = fed_raw_name cfg (AuthResponse.identity_url resp)
    ∧ User.mail u = AuthResponse.email resp
    ∧ User.timezone u = AuthResponse.timezone resp.
Proof.
  unfold user_from_response.
  destruct (get_first _ tbl) as [i|] eqn:Hget; cbn [assign deref fst snd].
  - destruct (get_first_Some _ _ _ Hget) as (x & Hlook & Hname).
    exists (refresh resp x).
    rewrite !list_lookup_alter_eq, Hlook. by rewrite <- Hname.
  - by eexists.
Qed.

(** X19: [user_from_response] keeps the number of rows and leaves every
    row stored under another username as it is and where it is. *)
Theorem user_from_response_other_rows (cfg : config)
    (resp : AuthResponse.t) (tbl : table) :
  length (user_from_response cfg resp tbl).2 = length tbl
  ∧ ∀ j u,
      tbl !! j = Some u →
      User.username u ≠ fed_raw_name cfg (AuthResponse.identity_url resp) →
      (user_from_response cfg resp tbl).2 !! j = Some u.
Proof.
  rewrite user_from_response_table.
  destruct (get_first _ tbl) as [i|] eqn:Hget; [| done].
  split; [by rewrite !length_alter |].
  intros j u Hlook Hother.
  destruct (get_first_Some _ _ _ Hget) as (x & Hi & Hname).
  assert (i ≠ j) by (intros ->; congruence).
  by rewrite !list_lookup_alter_ne.
Qed.

Lemma get_first_alter (name : string) (f : User.t → User.t) (i : nat)
    (tbl : table) :
  (∀ u, User.username (f u) = User.username u) →
  get_first name (alter f i tbl) = get_first name tbl.
Proof.
  intros Hf. unfold get_first. revert i.
  induction tbl as [|x tbl IH]; intros [|i]; try done.
  - cbn [alter list_alter list_find]. rewrite Hf. by destruct (decide _).
  - change (alter f (S i) (x :: tbl)) with (x :: alter f i tbl).
    cbn [list_find]. destruct (decide _); [done |].
    specialize (IH i). destruct (list_find _ (alter f i tbl)) as [[? ?]|],
      (list_find _ tbl) as [[? ?]|]; simplify_eq/=; done.
Qed.

Lemma get_first_app_new (name : string) (tbl : table) (x : User.t) :
  get_first name tbl = None → User.username x = name →
  get_first name (tbl ++ [x]) = Some (length tbl).
Proof.
  unfold get_first. intros Hnone Hx.
  induction tbl as [|y tbl IH]; cbn [app list_find length].
  - by rewrite decide_True.
  - cbn [list_find] in Hnone. destruct (decide _); [done |].
    destruct (list_find _ tbl) as [[? ?]|]; [done |].
    specialize (IH eq_refl).
    destruct (list_find _ (tbl ++ [x])) as [[? ?]|]; simplify_eq/=; done.
Qed.

Lemma alter_app_last (f : User.t → User.t) (tbl : table) (x : User.t) :
  alter f (length tbl) (tbl ++ [x]) = tbl ++ [f x].
Proof. induction tbl as [|y tbl IH]; [done |]. simpl. f_equal. apply IH. Qed.

Lemma refresh_row_twice (resp : AuthResponse.t) (i : nat) (tbl : table) :
  alter (User.set_timezone (AuthResponse.timezone resp)) i
    (alter (User.set_mail (AuthResponse.email resp)) i
       (alter (User.set_timezone (AuthResponse.timezone resp)) i
          (alter (User.set_mail (AuthResponse.email resp)) i tbl)))
  = alter (User.set_timezone (AuthResponse.timezone resp)) i
      (alter (User.set_mail (AuthResponse.email resp)) i tbl).
Proof.
  revert i. induction tbl as [|x tbl IH]; intros [|i]; try done.
  simpl. f_equal. apply IH.
Qed.

(** X20: a federated login repeated with the same response, the caller
    storing the object after each call, leaves the table that the first
    login left. *)
Theorem federated_login_idempotent (cfg : config) (resp : AuthResponse.t)
    (tbl : table) :
  federated_login cfg resp (federated_login cfg resp tbl)
  = federated_login cfg resp tbl.
Proof.
  destruct (get_first (fed_raw_name cfg (AuthResponse.identity_url resp)) tbl)
    as [i|] eqn:Hget.
  - rewrite (federated_login_found _ _ _ _ Hget).
    rewrite (federated_login_found cfg resp _ i).
    + apply refresh_row_twice.
    + by rewrite !get_first_alter.
  - rewrite (federated_login_new _ _ _ Hget).
    rewrite (federated_login_found cfg resp _ (length tbl)).
    + by rewrite !alter_app_last.
    + by apply get_first_app_new.
Qed.

End TableEffects.

(** ** The session markers *)

Section SessionMarkers.
Import Site AuthSession.

Lemma UserAuth_logout_state (next_url : string) (st : app) :
  (UserAuth_logout next_url st).2
  = App (users st) (openid_groups st) (krb5_logins st) (g_user st)
      (Session (delete "krb5_login" (delete "openid" (entries (session st))))
         (Some (flashed st ++ [("message", "You were signed out")])))
      (logged st ++ match g_user st with
                    | Some u => ["User '" +:+ name u +:+ "' logging out"]
                    | None => []
                    end).
Proof.
  destruct st as [tbl groups rows [u|] [ents fl] lg]; cbn; [done |].
  by rewrite app_nil_r.
Qed.

(** X21: after [UserAuth.logout] nobody is logged in: [current_username]
    is [None] whatever the session held.  Of the session, the entries
    [openid] and [krb5_login] are gone, the entry [_flashes] holds the
    messages it held followed by the notice of the logout under the
    category [message], and every other entry is as before; the user table
    and [flask.g.user] are as before. *)
Theorem logout_clears_markers (cfg : config) (next_url : string) (st : app) :
  UserAuth_current_username cfg (UserAuth_logout next_url st).2 = None
  ∧ entries (session (UserAuth_logout next_url st).2) !! "openid" = None
  ∧ entries (session (UserAuth_logout next_url st).2) !! "krb5_login" = None
  ∧ (∀ key, key ≠ "openid" → key ≠ "krb5_login" →
       entries (session (UserAuth_logout next_url st).2) !! key
       = entries (session st) !! key)
  ∧ flashes (session (UserAuth_logout next_url st).2)
    = Some (default [] (flashes (session st))
            ++ [("message", "You were signed out")])
  ∧ users (UserAuth_logout next_url st).2 = users st
  ∧ g_user (UserAuth_logout next_url st).2 = g_user st.
Proof.
  rewrite UserAuth_logout_state.
  unfold UserAuth_current_username, FedoraAccounts_username, Kerberos_username.
  cbn [session users g_user entries flashes].
  assert (Hopenid : delete "krb5_login" (delete "openid" (entries (session st)))
                      !! "openid" = None).
  { rewrite lookup_delete_ne by discriminate. apply lookup_delete_eq. }
  rewrite Hopenid, lookup_delete_eq. cbn [truthy_opt_str].
  repeat split.
  intros key Hopenid' Hkrb. by rewrite !lookup_delete_ne.
Qed.

End SessionMarkers.

(** ** The GSSAPI login view *)

Section GssapiLogin.
Import Site SiteShape Gssapi UsersLogic Ldap.
Variable db : Unicode.database.

Lemma extends_refl (st : app) : extends st st.
Proof.
  split; [| done]. exists [], []. rewrite !app_nil_r. cbn. auto.
Qed.

Lemma extends_log (line : string) (st : app) : extends st (log line st).
Proof.
  split; [| done]. exists [], []. cbn. rewrite !app_nil_r. auto.
Qed.

Lemma gssapi_login_action_done (rq : req) (st : app) (u : User.t) :
  g_user st = Some u → ∃ resp, gssapi_login_action rq st = Done resp.
Proof.
  intros Hg. unfold gssapi_login_action, auth_check_response. rewrite Hg.
  destruct (Str.occurs _ _); eauto.
Qed.

(** A name that was straightened is not empty. *)
Lemma straightened_truthy (raw username : string) :
  Krb.krb_straighten_username db raw = Some username → truthy_str username = true.
Proof.
  intros (w & Hne & _ & Hname)%krb_straighten_username_shape.
  destruct w as [|c w]; [done |]. by destruct Hname as [-> | ->].
Qed.

(** The end of the view: it raises and leaves the state, or records the
    login of the user of row [uid]. *)
Lemma finish_login_run (srv : server) (fuel : nat) (cfg : config) (rq : req)
    (username : string) (uid : nat) (st st' : app) (w w' : world)
    (r : vresult response) :
  finish_login srv fuel cfg rq username uid st w = Some (r, st', w') →
  (∃ e, r = Raised e ∧ st' = st)
  ∨ (∃ user groups resp,
       users st !! uid = Some user
       ∧ GroupAuth.groups srv fuel cfg None (Some username) w
         = Some (Ok groups, w')
       ∧ r = Done resp
       ∧ users st' = users st
       ∧ krb5_logins st' = krb5_logins st
       ∧ openid_groups st' = <[uid := groups]> (openid_groups st)
       ∧ g_user st' = Some user
       ∧ entries (session st')
         = <["krb5_login" := User.username user]> (entries (session st))
       ∧ flashes (session st')
         = Some (flashed st
                 ++ [("success", "Welcome, " +:+ User.username user)])).
Proof.
  unfold finish_login.
  destruct (GroupAuth.groups srv fuel cfg None (Some username) w)
    as [[[groups|e] w1]|] eqn:Hgroups; [| | done].
  - destruct (users st !! uid) as [user|] eqn:Huser.
    + intros [= <- <- <-]. right.
      edestruct (gssapi_login_action_done rq) as [resp Hresp];
        [| exists user, groups, resp; rewrite Hresp]; done.
    + intros [= <- <- <-]. left. eauto.
  - intros [= <- <- <-]. left. eauto.
Qed.

(** What a first login through [user_object] yields: the table is as it
    was, and the object is a row of the name or a new user of the name. *)
Lemma first_login_user (cfg : config) (username : string) (tbl tbl' : table)
    (obj : user_obj) :
  UserAuth.user_object cfg None (Some username) tbl = (Ok obj, tbl') →
  tbl' = tbl
  ∧ ∃ new_users user,
      (commit_user obj tbl).2 = tbl ++ new_users ∧ length new_users ≤ 1
      ∧ (commit_user obj tbl).2 !! (commit_user obj tbl).1 = Some user
      ∧ User.username user = username.
Proof.
  unfold UserAuth.user_object.
  destruct (truthy_str username && truthy_krb5 (KRB5_LOGIN cfg)); [| done].
  unfold Kerberos.user_from_username.
  destruct (get_first username tbl) as [i|] eqn:Hget.
  - intros [= <- <-]. split; [done |].
    destruct (get_first_Some _ _ _ Hget) as (x & Hlook & Hname).
    exists [], x. cbn. rewrite app_nil_r. auto.
  - destruct (FAS_LOGIN cfg); [done |].
    destruct (krb5_getitem _ _) as [domain|e]; [| done].
    intros [= <- <-]. split; [done |].
    exists [create_user_wrapper username
              (Some (username +:+ "@" +:+ domain)) None],
      (create_user_wrapper username (Some (username +:+ "@" +:+ domain)) None).
    cbn [commit_user fst snd]. split; [done |].
    split; [cbn; lia |]. split; [| done].
    rewrite lookup_app_r by lia. by rewrite Nat.sub_diag.
Qed.

Lemma find_krb_login_Some (username : string) (rows : list (string * nat))
    (row : string * nat) :
  find_krb_login username rows = Some row → row ∈ rows ∧ row.1 = username.
Proof.
  unfold find_krb_login.
  destruct (list_find _ rows) as [[i found]|] eqn:Hfind; [| done].
  intros [= <-]. apply list_find_Some in Hfind as (Hlook & Hname & _).
  split; [by apply list_elem_of_lookup_2 in Hlook | done].
Qed.

(** A run of the view for a visitor who is not logged in: the tables are
    extended, and then the view raises or records the login. *)
Lemma gssapi_login_run (srv : server) (fuel : nat) (cfg : config) (rq : req)
    (st st' : app) (w w' : world) (r : vresult response) :
  g_user st = None →
  gssapi_login db srv fuel cfg rq st w = Some (r, st', w') →
  ∃ st1,
    extends st st1
    ∧ ((∃ e, r = Raised e ∧ users st' = users st1
             ∧ krb5_logins st' = krb5_logins st1
             ∧ openid_groups st' = openid_groups st1
             ∧ g_user st' = g_user st1 ∧ session st' = session st1
             ∧ flashed st' = flashed st1)
       ∨ (∃ raw username uid user groups resp,
            effective_environ rq !! "REMOTE_USER" = Some raw
            ∧ Krb.krb_straighten_username db raw = Some username
            ∧ (username, uid) ∈ krb5_logins st1
            ∧ users st1 !! uid = Some user
            ∧ (find_krb_login username (krb5_logins st) = None →
               User.username user = username)
            ∧ GroupAuth.groups srv fuel cfg None (Some username) w
              = Some (Ok groups, w')
            ∧ r = Done resp
            ∧ users st' = users st1
            ∧ krb5_logins st' = krb5_logins st1
            ∧ openid_groups st' = <[uid := groups]> (openid_groups st1)
            ∧ g_user st' = Some user
            ∧ entries (session st')
              = <["krb5_login" := User.username user]> (entries (session st1)))).
Proof.
  intros Hanon. unfold gssapi_login. rewrite Hanon.
  destruct (effective_environ rq !! "REMOTE_USER") as [raw|] eqn:Hraw.
  2: { intros [= <- <- <-]. exists st. split; [apply extends_refl |].
       left. unfold auth_403. eauto 10. }
  destruct (Krb.krb_straighten_username db raw) as [username|] eqn:Hname.
  2: { intros [= <- <- <-]. eexists. split; [apply extends_log |].
       left. unfold auth_403. eauto 10. }
  rewrite (straightened_truthy _ _ Hname). cbn [negb krb5_logins users log].
  destruct (find_krb_login username (krb5_logins st)) as [krb_login|] eqn:Hfind.
  - intros Hrun. exists (log ("krb5 login attempt: " +:+ raw) st).
    split; [apply extends_log |].
    destruct (find_krb_login_Some _ _ _ Hfind) as [Hin Hprimary].
    destruct krb_login as [primary uid]. cbn [fst snd] in *. subst primary.
    apply finish_login_run in Hrun
      as [(e & -> & ->) | (user & groups & resp & Hrun)].
    + left. eauto 10.
    + right. exists raw, username, uid, user, groups, resp.
      destruct Hrun as (? & ? & ? & ? & ? & ? & ? & ? & _).
      repeat split; try done. by rewrite Hfind.
  - destruct (UserAuth.user_object cfg None (Some username) _)
      as [[obj|e] tbl] eqn:Hobject.
    + apply first_login_user in Hobject
        as (-> & new_users & user & Htable & Hone & Hlook & Huser).
      cbn [users log set_users] in *.
      destruct (commit_user obj (users st)) as [uid tbl1] eqn:Hcommit.
      cbn [fst snd] in *. intros Hrun.
      eexists. split.
      2: { apply finish_login_run in Hrun
             as [(e & -> & ->) | (user' & groups & resp & Hrun)].
           - left. eauto 10.
           - right. exists raw, username, uid, user', groups, resp.
             destruct Hrun as (Huser' & ? & ? & ? & ? & ? & ? & ? & _).
             cbn [users set_krb5_logins set_users] in Huser'.
             assert (user' = user) as -> by congruence.
             repeat split; try done.
             cbn. apply elem_of_app. right. apply list_elem_of_here. }
      split; [| split; [| done]].
      * exists new_users, [(username, uid)]. cbn. by rewrite Htable.
      * unfold bindings_valid. cbn. intros Hvalid.
        apply Forall_app. split.
        -- eapply list.Forall_impl; [exact Hvalid |].
           intros row Hrow. cbn in Hrow. rewrite Htable, length_app. lia.
        -- constructor; [| done]. cbn. by apply lookup_lt_Some in Hlook.
    + apply user_object_error_table in Hobject as ->.
      assert (Hsame : set_users (users st)
                        (log ("krb5 login attempt: " +:+ raw) st)
                      = log ("krb5 login attempt: " +:+ raw) st).
      { by destruct st. }
      rewrite Hsame.
      destruct e; intros [= <- <- <-]; eexists;
        (split; [apply extends_log |]); left; unfold auth_403; eauto 10.
Qed.

(** X22: without credentials, or with a principal that cannot be
    straightened, a visitor who is not logged in gets [AccessRestricted]
    with the message of the case; the tables, the session and the
    directory are not touched, and only the attempt is logged. *)
Theorem gssapi_login_rejects (srv : server) (fuel : nat) (cfg : config)
    (rq : req) (st : app) (w : world) :
  g_user st = None →
  match effective_environ rq !! "REMOTE_USER" with
  | None => gssapi_login db srv fuel cfg rq st w = Some (auth_403 nocred, st, w)
  | Some raw =>
      Krb.krb_straighten_username db raw = None →
      gssapi_login db srv fuel cfg rq st w
      = Some (auth_403 ("invalid krb5 username: " +:+ raw),
              log ("krb5 login attempt: " +:+ raw) st, w)
  end.
Proof.
  intros Hanon. unfold gssapi_login. rewrite Hanon.
  destruct (effective_environ rq !! "REMOTE_USER") as [raw|]; [| done].
  by intros ->.
Qed.

(** X23: whenever the view raises, the session, [flask.g.user], the
    flashed messages and the groups of every user are as they were: a
    login is recorded only by a run that returns. *)
Theorem gssapi_login_failure_keeps_login (srv : server) (fuel : nat)
    (cfg : config) (rq : req) (st st' : app) (w w' : world) (e : raised) :
  gssapi_login db srv fuel cfg rq st w = Some (Raised e, st', w') →
  session st' = session st
  ∧ g_user st' = g_user st
  ∧ flashed st' = flashed st
  ∧ openid_groups st' = openid_groups st.
Proof.
  destruct (g_user st) as [u|] eqn:Hg.
  - unfold gssapi_login. rewrite Hg. by intros [= _ <- _].
  - intros Hrun.
    destruct (gssapi_login_run _ _ _ _ _ _ _ _ _ Hg Hrun)
      as (st1 & (_ & _ & Hgroups & Huser & Hsession & Hflashed) & Hend).
    destruct Hend as [(e' & _ & _ & _ & -> & -> & -> & ->) | Hdone].
    + by rewrite Hg in Huser.
    + by destruct Hdone as (? & ? & ? & ? & ? & ? & _ & _ & _ & _ & _ & _ & ? & _).
Qed.

(** X24: when the view returns for a visitor who was not logged in, the
    request carried a principal that straightens to a username, that
    username is bound to a stored user, that user is [flask.g.user] and
    the session marker holds their name; on a first login of the principal
    the user's name is the straightened username. *)
Theorem gssapi_login_records_login (srv : server) (fuel : nat) (cfg : config)
    (rq : req) (st st' : app) (w w' : world) (resp : response) :
  g_user st = None →
  gssapi_login db srv fuel cfg rq st w = Some (Done resp, st', w') →
  ∃ raw username uid user,
    effective_environ rq !! "REMOTE_USER" = Some raw
    ∧ Krb.krb_straighten_username db raw = Some username
    ∧ (username, uid) ∈ krb5_logins st'
    ∧ users st' !! uid = Some user
    ∧ g_user st' = Some user
    ∧ entries (session st') !! "krb5_login" = Some (User.username user)
    ∧ (find_krb_login username (krb5_logins st) = None →
       User.username user = username).
Proof.
  intros Hg Hrun.
  destruct (gssapi_login_run _ _ _ _ _ _ _ _ _ Hg Hrun) as (st1 & _ & Hend).
  destruct Hend as [(e & ? & _) | Hdone]; [done |].
  destruct Hdone as (raw & username & uid & user & groups & resp' & Hraw
                     & Hname & Hin & Hlook & Hfirst & _ & _ & Husers & Hlogins
                     & _ & Huser & Hsession).
  exists raw, username, uid, user. rewrite Husers, Hlogins, Hsession.
  by rewrite lookup_insert_eq.
Qed.

(** X25: a run of the view only appends to the tables: at most one user
    row and at most one binding are added, nothing stored is removed or
    moved, and if every binding referred to a stored user before, every
    binding does so after. *)
Theorem gssapi_login_appends (srv : server) (fuel : nat) (cfg : config)
    (rq : req) (st st' : app) (w w' : world) (r : vresult response) :
  gssapi_login db srv fuel cfg rq st w = Some (r, st', w') →
  (∃ new_users new_logins,
     users st' = users st ++ new_users
     ∧ krb5_logins st' = krb5_logins st ++ new_logins
     ∧ length new_users ≤ 1 ∧ length new_logins ≤ 1)
  ∧ (bindings_valid st → bindings_valid st').
Proof.
  destruct (g_user st) as [u|] eqn:Hg.
  - unfold gssapi_login. rewrite Hg. intros [= _ <- _].
    split; [| done]. exists [], []. rewrite !app_nil_r. cbn. auto.
  - intros Hrun.
    destruct (gssapi_login_run _ _ _ _ _ _ _ _ _ Hg Hrun)
      as (st1 & (Happend & Hvalid & _) & Hend).
    assert (Htables : users st' = users st1 ∧ krb5_logins st' = krb5_logins st1).
    { destruct Hend as [(e & _ & ? & ? & _) | Hdone]; [done |].
      by destruct Hdone as (? & ? & ? & ? & ? & ? & _ & _ & _ & _ & _ & _ & _
                            & ? & ? & _). }
    destruct Htables as [Husers Hlogins].
    unfold bindings_valid in *. by rewrite Husers, Hlogins.
Qed.

(** X26: with federated login on and Kerberos login configured, a
    principal that is bound to nobody and names no stored user is turned
    away with [AccessRestricted] and the advice to log in through the
    web UI first; no user and no binding is stored. *)
Theorem gssapi_login_unknown_user_with_fas (srv : server) (fuel : nat)
    (cfg : config) (rq : req) (st : app) (w : world) (raw username : string) :
  g_user st = None →
  effective_environ rq !! "REMOTE_USER" = Some raw →
  Krb.krb_straighten_username db raw = Some username →
  find_krb_login username (krb5_logins st) = None →
  get_first username (users st) = None →
  FAS_LOGIN cfg = true →
  truthy_krb5 (KRB5_LOGIN cfg) = true →
  gssapi_login db srv fuel cfg rq st w
  = Some (auth_403 (Kerberos.restricted_message username),
          log ("krb5 login attempt: " +:+ raw) st, w).
Proof.
  intros Hg Hraw Hname Hfind Hget Hfas Hkrb.
  unfold gssapi_login. rewrite Hg, Hraw, Hname.
  rewrite (straightened_truthy _ _ Hname). cbn [negb krb5_logins users log].
  rewrite Hfind. unfold UserAuth.user_object.
  rewrite (straightened_truthy _ _ Hname), Hkrb. cbn [andb].
  unfold Kerberos.user_from_username. rewrite Hget, Hfas.
  by destruct st.
Qed.

(** X27: with federated login on, a GSSAPI login of a bound user returns
    without asking the directory, and replaces the user's groups by the
    dictionary that maps [fas_groups] to [None]. *)
Theorem gssapi_login_fas_resets_groups (srv : server) (fuel : nat)
    (cfg : config) (rq : req) (st : app) (w : world) (raw username : string)
    (uid : nat) (user : User.t) :
  g_user st = None →
  effective_environ rq !! "REMOTE_USER" = Some raw →
  Krb.krb_straighten_username db raw = Some username →
  find_krb_login username (krb5_logins st) = Some (username, uid) →
  users st !! uid = Some user →
  FAS_LOGIN cfg = true →
  ∃ resp st',
    gssapi_login db srv fuel cfg rq st w = Some (Done resp, st', w)
    ∧ openid_groups st' !! uid = Some {[ "fas_groups" := NamesNone ]}
    ∧ entries (session st') !! "krb5_login" = Some (User.username user).
Proof.
  intros Hg Hraw Hname Hfind Hlook Hfas.
  unfold gssapi_login. rewrite Hg, Hraw, Hname.
  pose proof (straightened_truthy _ _ Hname) as Htruthy.
  rewrite Htruthy. cbn [negb krb5_logins users log].
  rewrite Hfind. cbn [snd]. unfold finish_login.
  assert (Hgroups : GroupAuth.groups srv fuel cfg None (Some username) w
                    = Some (Ok {[ "fas_groups" := NamesNone ]}, w)).
  { unfold GroupAuth.groups, bind, GroupAuth.group_names.
    rewrite Hfas. cbn [truthy_opt_str andb]. by rewrite Htruthy. }
  rewrite Hgroups. cbn [users log]. rewrite Hlook.
  edestruct (gssapi_login_action_done rq) as [resp Hresp];
    [| eexists resp, _; rewrite Hresp; split; [reflexivity |]].
  - reflexivity.
  - cbn. by rewrite !lookup_insert_eq.
Qed.

End GssapiLogin.

Lemma gssapi_login_rejects_witness :
  Gssapi.gssapi_login Sample.latin1 Sample.srv_alice 1 Sample.cfg_krb
    SiteSample.rq_anonymous SiteSample.st_empty Ldap.world0
  = Some (Gssapi.auth_403 Gssapi.nocred, SiteSample.st_empty, Ldap.world0)
  ∧ Gssapi.gssapi_login Sample.latin1 Sample.srv_alice 1 Sample.cfg_krb
      SiteSample.rq_times SiteSample.st_empty Ldap.world0
    = Some (Gssapi.auth_403 "invalid krb5 username: 3×4@EXAMPLE.COM",
            Site.log "krb5 login attempt: 3×4@EXAMPLE.COM" SiteSample.st_empty,
            Ldap.world0).
Proof.
  split.
  - exact (gssapi_login_rejects Sample.latin1 Sample.srv_alice 1 Sample.cfg_krb
             SiteSample.rq_anonymous SiteSample.st_empty Ldap.world0 eq_refl).
  - exact (gssapi_login_rejects Sample.latin1 Sample.srv_alice 1 Sample.cfg_krb
             SiteSample.rq_times SiteSample.st_empty Ldap.world0 eq_refl
             eq_refl).
Defined.

Lemma gssapi_login_failure_keeps_login_witness :
  Site.session (Site.log "krb5 login attempt: @EXAMPLE.COM" SiteSample.st_empty)
    = Site.session SiteSample.st_empty
  ∧ Site.g_user (Site.log "krb5 login attempt: @EXAMPLE.COM" SiteSample.st_empty)
    = Site.g_user SiteSample.st_empty
  ∧ Site.flashed (Site.log "krb5 login attempt: @EXAMPLE.COM" SiteSample.st_empty)
    = Site.flashed SiteSample.st_empty
  ∧ Site.openid_groups
      (Site.log "krb5 login attempt: @EXAMPLE.COM" SiteSample.st_empty)
    = Site.openid_groups SiteSample.st_empty.
Proof.
  exact (gssapi_login_failure_keeps_login Sample.latin1 Sample.srv_alice 1 Sample.cfg_krb
           SiteSample.rq_realm_only SiteSample.st_empty
           (Site.log "krb5 login attempt: @EXAMPLE.COM" SiteSample.st_empty)
           Ldap.world0 Ldap.world0
           (Site.Exn (AccessRestricted
              "Can't log-in using GSSAPI: invalid krb5 username: @EXAMPLE.COM"))
           eq_refl).
Defined.

Lemma gssapi_login_records_login_witness :
  ∃ st' raw username uid user,
    Gssapi.effective_environ SiteSample.rq_alice !! "REMOTE_USER" = Some raw
    ∧ Krb.krb_straighten_username Sample.latin1 raw = Some username
    ∧ (username, uid) ∈ Site.krb5_logins st'
    ∧ Site.users st' !! uid = Some user
    ∧ Site.g_user st' = Some user
    ∧ Site.entries (Site.session st') !! "krb5_login" = Some (User.username user)
    ∧ (Gssapi.find_krb_login username (Site.krb5_logins SiteSample.st_empty)
         = None →
       User.username user = username).
Proof.
  eexists.
  eapply (gssapi_login_records_login Sample.latin1 Sample.srv_alice 1 Sample.cfg_krb
            SiteSample.rq_alice SiteSample.st_empty _ Ldap.world0);
    reflexivity.
Defined.

Lemma gssapi_login_appends_witness :
  ∃ st',
    (∃ new_users new_logins,
       Site.users st' = Site.users SiteSample.st_empty ++ new_users
       ∧ Site.krb5_logins st'
         = Site.krb5_logins SiteSample.st_empty ++ new_logins
       ∧ length new_users ≤ 1 ∧ length new_logins ≤ 1)
    ∧ (SiteShape.bindings_valid SiteSample.st_empty →
       SiteShape.bindings_valid st').
Proof.
  eexists.
  eapply (gssapi_login_appends Sample.latin1 Sample.srv_alice 1 Sample.cfg_krb
            SiteSample.rq_alice SiteSample.st_empty _ Ldap.world0).
  reflexivity.
Defined.

Lemma gssapi_login_unknown_user_with_fas_witness :
  Gssapi.gssapi_login Sample.latin1 Sample.srv_alice 1 Sample.cfg_fas SiteSample.rq_alice
    SiteSample.st_empty Ldap.world0
  = Some (Gssapi.auth_403 (Kerberos.restricted_message "alice"),
          Site.log "krb5 login attempt: alice@EXAMPLE.COM" SiteSample.st_empty,
          Ldap.world0).
Proof.
  exact (gssapi_login_unknown_user_with_fas Sample.latin1 Sample.srv_alice 1 Sample.cfg_fas
           SiteSample.rq_alice SiteSample.st_empty Ldap.world0
           "alice@EXAMPLE.COM" "alice"
           eq_refl eq_refl eq_refl eq_refl eq_refl eq_refl eq_refl).
Defined.

Lemma gssapi_login_fas_resets_groups_witness :
  ∃ resp st',
    Gssapi.gssapi_login Sample.latin1 Sample.srv_alice 0 Sample.cfg_fas SiteSample.rq_alice
      SiteSample.st_alice_bound Ldap.world0
    = Some (Site.Done resp, st', Ldap.world0)
    ∧ Site.openid_groups st' !! 0 = Some {[ "fas_groups" := NamesNone ]}
    ∧ Site.entries (Site.session st') !! "krb5_login" = Some "alice".
Proof.
  exact (gssapi_login_fas_resets_groups Sample.latin1 Sample.srv_alice 0 Sample.cfg_fas
           SiteSample.rq_alice SiteSample.st_alice_bound Ldap.world0
           "alice@EXAMPLE.COM" "alice" 0 Sample.alice_row
           eq_refl eq_refl eq_refl eq_refl eq_refl eq_refl).
Defined.

(** ** From the principal to the directory and to the session *)

Section LoginEndToEnd.
Import Str Krb Form Site SiteShape Gssapi AuthSession Ldap.
Variable db : Unicode.database.

(** A byte of a name, ASCII or past ASCII, is none of the characters with
    a meaning in a filter. *)
Lemma name_byte_not_special (c : ascii) :
  name_byte c = true → negb (mem_char c filter_specials) = true.
Proof. destruct c as [[] [] [] [] [] [] [] []]; vm_compute; congruence. Qed.

Lemma straightened_filter_safe (raw name : string) :
  krb_straighten_username db raw = Some name →
  free_of filter_specials name = true.
Proof.
  intros (w & _ & Hw & Hname)%krb_straighten_username_shape.
  assert (Hsafe : free_of filter_specials w = true).
  { revert Hw. apply all_chars_impl, name_byte_not_special. }
  destruct Hname as [-> | ->]; [done |].
  unfold free_of in *. by rewrite all_chars_app, Hsafe.
Qed.

(** X28: a username that was straightened holds none of the characters
    that have a meaning in a search filter: no parenthesis, no asterisk and
    no backslash; this holds for every principal and every Unicode
    database. *)
Theorem krb_straighten_username_filter_safe (raw name : string) :
  krb_straighten_username db raw = Some name →
  free_of filter_specials name = true.
Proof. apply straightened_filter_safe. Qed.

(** What the end of the view does to the world is what [group_names] does
    to it. *)
Lemma finish_login_world (srv : server) (fuel : nat) (cfg : config) (rq : req)
    (username : string) (uid : nat) (st st' : app) (w w' : world)
    (r : vresult response) :
  finish_login srv fuel cfg rq username uid st w = Some (r, st', w') →
  ∃ names,
    GroupAuth.group_names srv fuel cfg None (Some username) w = Some (names, w').
Proof.
  unfold finish_login, GroupAuth.groups, bind.
  destruct (GroupAuth.group_names srv fuel cfg None (Some username) w)
    as [[[names|e] w1]|]; [| | done].
  - cbn [ret]. destruct (users st !! uid); intros [= _ _ <-]; eauto.
  - intros [= _ _ <-]. eauto.
Qed.

Lemma gssapi_login_world (srv : server) (fuel : nat) (cfg : config) (rq : req)
    (st st' : app) (w w' : world) (r : vresult response) :
  gssapi_login db srv fuel cfg rq st w = Some (r, st', w') →
  w' = w
  ∨ ∃ raw username names,
      effective_environ rq !! "REMOTE_USER" = Some raw
      ∧ krb_straighten_username db raw = Some username
      ∧ GroupAuth.group_names srv fuel cfg None (Some username) w
        = Some (names, w').
Proof.
  unfold gssapi_login.
  destruct (g_user st); [intros [= _ _ <-]; by left |].
  destruct (effective_environ rq !! "REMOTE_USER") as [raw|];
    [| intros [= _ _ <-]; by left].
  destruct (krb_straighten_username db raw) as [username|] eqn:Hname;
    [| intros [= _ _ <-]; by left].
  destruct (negb (truthy_str username)); [intros [= _ _ <-]; by left |].
  destruct (find_krb_login username _) as [krb_login|].
  - intros (names & Hnames)%finish_login_world. right. eauto 10.
  - destruct (UserAuth.user_object cfg None (Some username) _)
      as [[obj|e] tbl].
    + destruct (commit_user obj _) as [uid tbl1].
      intros (names & Hnames)%finish_login_world. right. eauto 10.
    + destruct e; intros [= _ _ <-]; by left.
Qed.

(** X29: a run of the view sends at most one search to the directory and
    never sleeps; the search it sends is the one for the straightened
    username, which holds no character with a meaning in a filter. *)
Theorem gssapi_login_one_safe_search (srv : server) (fuel : nat)
    (cfg : config) (rq : req) (st st' : app) (w w' : world)
    (r : vresult response) :
  gssapi_login db srv fuel cfg rq st w = Some (r, st', w') →
  w' = w
  ∨ ∃ raw username,
      effective_environ rq !! "REMOTE_USER" = Some raw
      ∧ krb_straighten_username db raw = Some username
      ∧ free_of filter_specials username = true
      ∧ w' = World (sent w ++ [user_request (LDAP_URL cfg)
                                 (LDAP_SEARCH_STRING cfg) username])
               (slept_ms w) (printed w).
Proof.
  intros [-> | (raw & username & names & Hraw & Hname & Hnames)]%gssapi_login_world;
    [by left |].
  apply group_names_world in Hnames
    as [-> | (_ & _ & _ & _ & name & [= <-] & _ & ->)]; [by left |].
  right. exists raw, username. repeat split; try done.
  by apply (straightened_filter_safe raw).
Qed.

(** X30: after a run of the view that returns for a visitor who was not
    logged in and whose session bears no federated marker,
    [current_username] is the name of the user now in [flask.g.user]. *)
Theorem gssapi_login_then_current_username (srv : server) (fuel : nat)
    (cfg : config) (rq : req) (st st' : app) (w w' : world) (resp : response) :
  g_user st = None →
  entries (session st) !! "openid" = None →
  gssapi_login db srv fuel cfg rq st w = Some (Done resp, st', w') →
  ∃ user,
    g_user st' = Some user
    ∧ UserAuth_current_username cfg st' = Some (User.username user).
Proof.
  intros Hg Hopenid Hrun.
  destruct (gssapi_login_run _ _ _ _ _ _ _ _ _ _ Hg Hrun)
    as (st1 & (_ & _ & _ & _ & Hsession1 & _) & Hend).
  destruct Hend as [(e & ? & _) | Hdone]; [done |].
  destruct Hdone as (raw & username & uid & user & groups & resp' & _ & _ & _
                     & _ & _ & _ & _ & _ & _ & _ & Huser & Hsession).
  exists user. split; [done |].
  unfold UserAuth_current_username, FedoraAccounts_username, Kerberos_username.
  rewrite Hsession, Hsession1.
  rewrite lookup_insert_ne by discriminate. rewrite Hopenid.
  cbn [truthy_opt_str]. by rewrite lookup_insert_eq.
Qed.

End LoginEndToEnd.

Lemma krb_straighten_username_filter_safe_witness :
  Form.free_of Form.filter_specials "josé_admin" = true.
Proof.
  exact (krb_straighten_username_filter_safe Sample.latin1
           "josé/admin@EXAMPLE.COM" "josé_admin" eq_refl).
Defined.

Lemma gssapi_login_one_safe_search_witness :
  ∃ w' : Ldap.world,
    w' = Ldap.world0
    ∨ ∃ raw username,
        Gssapi.effective_environ SiteSample.rq_jose !! "REMOTE_USER" = Some raw
        ∧ Krb.krb_straighten_username Sample.latin1 raw = Some username
        ∧ Form.free_of Form.filter_specials username = true
        ∧ w' = Ldap.World
                 (Ldap.sent Ldap.world0
                    ++ [Form.user_request (LDAP_URL Sample.cfg_krb)
                          (LDAP_SEARCH_STRING Sample.cfg_krb) username])
                 (Ldap.slept_ms Ldap.world0) (Ldap.printed Ldap.world0).
Proof.
  eexists.
  eapply (gssapi_login_one_safe_search Sample.latin1 Sample.srv_alice 1
            Sample.cfg_krb SiteSample.rq_jose SiteSample.st_empty _
            Ldap.world0).
  reflexivity.
Defined.

Lemma gssapi_login_then_current_username_witness :
  ∃ st' user,
    Site.g_user st' = Some user
    ∧ AuthSession.UserAuth_current_username Sample.cfg_krb st'
      = Some (User.username user).
Proof.
  eexists.
  eapply (gssapi_login_then_current_username Sample.latin1 Sample.srv_alice 1 Sample.cfg_krb
            SiteSample.rq_alice SiteSample.st_empty _ Ldap.world0);
    reflexivity.
Defined.
